(** * Exercise tracker: the four route handlers of [src/index.js]

    The program is an Express application over two Mongoose models, [User]
    and [Exercise].  Each handler is embedded as a function from the request
    and the database to the answer and the database that results.

    What the handlers themselves do (tests on the request fields, the order
    of the lookups, what is inside and outside [try]/[catch], the chain of
    query-builder calls, the JSON that is sent) is transcribed from
    [src/index.js].  What the JavaScript built-ins and the Mongoose calls do
    is not in that file; it is taken from their documented behaviour and is
    kept apart: the built-ins that read strings are the fields of the class
    [Platform], and the Mongoose model is the module [Mongoose]. *)

From Stdlib Require Import ZArith NArith List String Ascii Bool Lia.
From Stdlib Require Import Permutation Sorted.
Import ListNotations.

Local Open Scope string_scope.
Local Open Scope Z_scope.
Local Open Scope list_scope.

(* ================================================================== *)
(** ** JavaScript values *)

Module JS.

(** The numbers the program handles are results of [parseInt]: NaN, an
    integer, or an infinity (what [parseInt] gives for a run of digits too
    long for a double). *)
Inductive number : Type :=
| NaN
| Num (z : Z)
| PlusInfinity
| MinusInfinity.

(** A number as it stands in a JSON body: [res.json] writes a finite number
    as itself, and NaN and the infinities as [null]. *)
Inductive JSONNumber : Type :=
| JNull
| JNum (z : Z).

Definition stringify (n : number) : JSONNumber :=
  match n with
  | Num z => JNum z
  | NaN | PlusInfinity | MinusInfinity => JNull
  end.

(** A [Date] object holds a time value in milliseconds since the epoch, or
    NaN (an "Invalid Date"). *)
Inductive Date : Type :=
| InvalidDate
| DateAt (ms : Z).

(** [isNaN(d)] on a Date. *)
Definition isNaN (d : Date) : bool :=
  match d with
  | InvalidDate => true
  | DateAt _ => false
  end.

(** A field of [req.body] or [req.query] is [undefined] or a string
    (a parameter repeated or written with brackets, which the parsers turn
    into an array or an object, is not considered).  In a test such as
    [if (date)] or [!description] it counts as given when it is a string
    other than the empty one; [given] returns that string. *)
Definition given (field : option string) : option string :=
  match field with
  | Some s => if (s =? "")%string then None else Some s
  | None => None
  end.

End JS.

(* ================================================================== *)
(** ** What is read from strings, and the two clock readings *)

(** Identifiers of documents.  Mongoose generates them; only their identity
    matters here. *)
Definition ObjectId : Type := N.

(** - [parseInt s] is JavaScript's [parseInt(s)];
    - [Date_parse s] is the Date built by [new Date(s)];
    - [toDateString ms] is [d.toDateString()] for a valid Date [d] whose
      time value is [ms] (it depends on the time zone of the process);
    - [castObjectId s] is Mongoose's cast of a string to an ObjectId,
      [None] when the string is not the text of one;
    - [schemaLoadTime] is the value of the [new Date()] that line 41
      evaluates once, when [exerciseSchema] is built;
    - [nanLimitRejected] tells whether the server refuses a query whose
      limit is NaN or reads it as 0 (releases differ);
    - [infiniteLimitRejected] tells whether the server refuses a query
      whose limit is an infinity or reads it as no limit. *)
Class Platform : Type := {
  parseInt : string -> JS.number;
  Date_parse : string -> JS.Date;
  toDateString : Z -> string;
  castObjectId : string -> option ObjectId;
  schemaLoadTime : Z;
  nanLimitRejected : bool;
  infiniteLimitRejected : bool
}.

(* ================================================================== *)
(** ** The Mongoose models and the collections behind them

    What the handlers rely on, as Mongoose and the MongoDB server document
    it:
    - a document is validated when it is saved: a required path must be
      present (a required String must not be empty) and every value must
      cast to the type of its path (NaN is no Number, an Invalid Date is no
      Date); otherwise the save rejects;
    - a unique index refuses a second document with the same value;
    - the conditions of a query are cast to the types of their paths when
      the query is executed; a value that does not cast (a string that is
      not the text of an ObjectId, an Invalid Date) makes the query reject
      with a CastError;
    - a find filters, then sorts, then limits, whatever the order in which
      the builder was called; a limit of 0 is no limit, and a negative
      limit is read as its absolute value. *)

Module Mongoose.

(** A document of the [users] collection ([userSchema], lines 31-33). *)
Record User : Type := mkUser {
  u_id : ObjectId;
  username : string
}.

(** A document of the [exercises] collection ([exerciseSchema], lines
    37-42).  A stored [duration] is a number that passed the cast to
    Number, which refuses NaN only, so it is an integer or an infinity; a
    stored [date] is a Date that passed the cast to Date, so it is valid. *)
Record Exercise : Type := mkExercise {
  e_id : ObjectId;
  userId : ObjectId;
  description : string;
  duration : JS.number;
  date : Z
}.

(** The database: both collections, in insertion order. *)
Record Store : Type := mkStore {
  users : list User;
  exercises : list Exercise
}.

Definition empty : Store := mkStore [] [].

(** What holds of every database the application builds: no two users
    share a username or an identifier, and every exercise belongs to a
    stored user. *)
Definition consistent (db : Store) : Prop :=
  NoDup (map username (users db))
  /\ NoDup (map u_id (users db))
  /\ Forall (fun e => In (userId e) (map u_id (users db))) (exercises db).

(** What a rejected Mongoose promise carries. *)
Inductive MongooseError : Type :=
| CastError (path : string)
| ValidationError (path : string)
| DuplicateKey (path : string)
| ServerError (msg : string).

(** The outcome of an awaited Mongoose call. *)
Inductive result (A : Type) : Type :=
| Ok (a : A)
| Err (e : MongooseError).

Arguments Ok {A} a.
Arguments Err {A} e.

Definition bind {A B : Type} (r : result A) (k : A -> result B) : result B :=
  match r with
  | Ok a => k a
  | Err e => Err e
  end.

Declare Scope mongoose_scope.
Delimit Scope mongoose_scope with mongoose.
Notation "x <- r ;; k" := (bind r (fun x => k))
  (at level 61, r at next level, right associativity) : mongoose_scope.

(** *** Identifier generation *)

Definition max_id (ids : list ObjectId) : ObjectId :=
  fold_right N.max 0%N ids.

Definition all_ids (db : Store) : list ObjectId :=
  map u_id (users db) ++ map e_id (exercises db).

(** The identifier given to a new document: one that no stored document
    has. *)
Definition fresh_id (db : Store) : ObjectId :=
  N.succ (max_id (all_ids db)).

(** *** [User] *)

Definition has_username (name : string) (db : Store) : bool :=
  existsb (fun u => (username u =? name)%string) (users db).

(** [new User({ username }).save()].  [username] is required (a missing or
    empty string fails validation) and unique (the index refuses a second
    document with the same value).  On success the document is appended
    to the collection. *)
Definition User_save (name : option string) (db : Store)
  : result (User * Store) :=
  match name with
  | None => Err (ValidationError "username")
  | Some s =>
      if (s =? "")%string then Err (ValidationError "username")
      else if has_username s db then Err (DuplicateKey "username")
      else
        let doc := mkUser (fresh_id db) s in
        Ok (doc, mkStore (users db ++ [doc]) (exercises db))
  end.

(** [User.find().select("username _id")]. *)
Definition User_find (db : Store) : list User := users db.

(** [User.findById(id)]: the string is cast to an ObjectId, which fails with
    a CastError when it is not the text of one; otherwise the document with
    that identifier, or [null]. *)
Definition User_findById {P : Platform} (id : string) (db : Store)
  : result (option User) :=
  match castObjectId id with
  | None => Err (CastError "_id")
  | Some oid => Ok (find (fun u => (u_id u =? oid)%N) (users db))
  end.

(** *** [Exercise] *)

(** The object handed to [new Exercise(...)].  A [date] left out
    ([None]) takes the schema default. *)
Record ExerciseInit : Type := mkInit {
  i_userId : ObjectId;
  i_description : string;
  i_duration : JS.number;
  i_date : option JS.Date
}.

(** [new Exercise(init).save()]: [description] is required, [duration] is
    cast to Number (NaN fails the cast, every other number passes, the
    infinities too), [date] is cast to Date (an Invalid Date fails the
    cast) and defaults to the Date captured when the schema was built. *)
Definition Exercise_save {P : Platform} (init : ExerciseInit) (db : Store)
  : result (Exercise * Store) :=
  (_ <- (if (i_description init =? "")%string
         then Err (ValidationError "description") else Ok tt) ;;
   n <- match i_duration init with
        | JS.NaN => Err (ValidationError "duration")
        | n => Ok n
        end ;;
   d <- match i_date init with
        | None => Ok schemaLoadTime
        | Some (JS.DateAt ms) => Ok ms
        | Some JS.InvalidDate => Err (ValidationError "date")
        end ;;
   let doc := mkExercise (fresh_id db) (i_userId init)
                         (i_description init) n d in
   Ok (doc, mkStore (users db) (exercises db ++ [doc])))%mongoose.

(** *** Queries on [Exercise] *)

(** A value given to [.gte] or [.lte] on the path [date]: the handler
    passes a Date or the number 0. *)
Inductive bound : Type :=
| BNum (n : Z)
| BDate (d : JS.Date).

(** A query under construction.  The builder calls only record what was
    asked; nothing is looked up before [exec]. *)
Record Query : Type := mkQuery {
  q_userId : string;
  q_gte : option bound;
  q_lte : option bound;
  q_limit : option JS.number;
  q_sort : bool
}.

(** [Exercise.find({ userId: id })]. *)
Definition Exercise_find (id : string) : Query :=
  mkQuery id None None None false.

(** [.where("date").gte(v)]. *)
Definition gte (v : bound) (q : Query) : Query :=
  mkQuery (q_userId q) (Some v) (q_lte q) (q_limit q) (q_sort q).

(** [.lte(v)]. *)
Definition lte (v : bound) (q : Query) : Query :=
  mkQuery (q_userId q) (q_gte q) (Some v) (q_limit q) (q_sort q).

(** [.limit(n)]. *)
Definition limit (n : JS.number) (q : Query) : Query :=
  mkQuery (q_userId q) (q_gte q) (q_lte q) (Some n) (q_sort q).

(** [.sort({ date: 1 })]. *)
Definition sort_date_asc (q : Query) : Query :=
  mkQuery (q_userId q) (q_gte q) (q_lte q) (q_limit q) true.

(** The cast of a bound on a Date path: a number is the time value, a
    valid Date is itself, an Invalid Date is a CastError. *)
Definition cast_bound (v : option bound) : result (option Z) :=
  match v with
  | None => Ok None
  | Some (BNum n) => Ok (Some n)
  | Some (BDate (JS.DateAt ms)) => Ok (Some ms)
  | Some (BDate JS.InvalidDate) => Err (CastError "date")
  end.

Definition above (lo : option Z) (d : Z) : bool :=
  match lo with
  | Some l => l <=? d
  | None => true
  end.

Definition below (hi : option Z) (d : Z) : bool :=
  match hi with
  | Some h => d <=? h
  | None => true
  end.

(** The filter of the query: the owner, and the two bounds, inclusive. *)
Definition selects (uid : ObjectId) (lo hi : option Z) (e : Exercise) : bool :=
  (userId e =? uid)%N && above lo (date e) && below hi (date e).

Fixpoint insert_by_date (x : Exercise) (l : list Exercise) : list Exercise :=
  match l with
  | [] => [x]
  | y :: l' =>
      if date x <=? date y then x :: y :: l' else y :: insert_by_date x l'
  end.

(** Ascending order of [date].  Documents of equal date keep their
    insertion order here; the server promises no order among them, and
    nothing below depends on it. *)
Definition sort_by_date (l : list Exercise) : list Exercise :=
  fold_right insert_by_date [] l.

(** The order that [sort_by_date] establishes. *)
Definition date_le (a b : Exercise) : Prop := date a <= date b.

(** The limit of a find: a positive [n] keeps at most [n] documents, 0
    means no limit, a negative [n] is read as [-n]; what becomes of a limit
    that is NaN or an infinity is the platform's. *)
Definition apply_limit {P : Platform} (lim : option JS.number)
  (l : list Exercise) : result (list Exercise) :=
  match lim with
  | None => Ok l
  | Some (JS.Num n) =>
      if n =? 0 then Ok l else Ok (firstn (Z.abs_nat n) l)
  | Some JS.NaN =>
      if nanLimitRejected then Err (ServerError "limit") else Ok l
  | Some JS.PlusInfinity | Some JS.MinusInfinity =>
      if infiniteLimitRejected then Err (ServerError "limit") else Ok l
  end.

(** [q.exec()]: the conditions are cast, then the server filters, sorts and
    limits, in that order, whatever the order of the builder calls. *)
Definition exec {P : Platform} (q : Query) (db : Store) : result (list Exercise) :=
  (uid <- match castObjectId (q_userId q) with
          | Some oid => Ok oid
          | None => Err (CastError "userId")
          end ;;
   lo <- cast_bound (q_gte q) ;;
   hi <- cast_bound (q_lte q) ;;
   let found := filter (selects uid lo hi) (exercises db) in
   let ordered := if q_sort q then sort_by_date found else found in
   apply_limit (q_limit q) ordered)%mongoose.

End Mongoose.

(* ================================================================== *)
(** ** The route handlers *)

Import Mongoose.

(** An element of the [log] array (lines 176-180), as it is sent. *)
Record LogEntry : Type := mkEntry {
  l_description : string;
  l_duration : JS.JSONNumber;
  l_date : string
}.

(** The JSON bodies the handlers send, as [res.json] writes them. *)
Inductive body : Type :=
| JError (error : string)
| JUser (name : string) (_id : ObjectId)
| JUsers (all : list User)
| JExercise (_id : ObjectId) (name : string) (date_string : string)
            (minutes : JS.JSONNumber) (text : string)
| JLog (_id : ObjectId) (name : string) (count : nat) (log : list LogEntry).

(** What a handler does with a request: it sends a response, or one of its
    awaited calls rejects outside any [try] and the handler sends nothing
    (Express 4 leaves the request unanswered, Express 5 hands the error to
    its own error handler). *)
Inductive outcome : Type :=
| Respond (status : nat) (json : body)
| Unhandled (err : MongooseError).

(** [req.body] of [POST /api/users/:_id/exercises]. *)
Record ExerciseForm : Type := mkForm {
  f_description : option string;
  f_duration : option string;
  f_date : option string
}.

(** [req.query] of [GET /api/users/:_id/logs]. *)
Record LogsQuery : Type := mkLogsQuery {
  q_from : option string;
  q_to : option string;
  q_lim : option string
}.

(** A request to one of the four routes, with the time at which it is
    handled where the handler reads the clock. *)
Inductive Request : Type :=
| PostUsers (name : option string)
| GetUsers
| PostExercises (now : Z) (id : string) (form : ExerciseForm)
| GetLogs (now : Z) (id : string) (q : LogsQuery).

Section Handlers.

Context {P : Platform}.

(** [POST /api/users], lines 50-67. *)
Definition post_users (name : option string) (db : Store) : outcome * Store :=
  match User_save name db with
  | Ok (savedUser, db') =>
      (Respond 200 (JUser (username savedUser) (u_id savedUser)), db')
  | Err _ =>
      (Respond 500 (JError "Could not create user"), db)
  end.

(** [GET /api/users], lines 70-80. *)
Definition get_users (db : Store) : outcome :=
  Respond 200 (JUsers (User_find db)).

(** Lines 100-108: the date of the exercise, or [None] where the handler
    answers "Invalid date format".  [now] is the value of [new Date()] on
    line 101. *)
Definition exerciseDate (now : Z) (date_field : option string)
  : option JS.Date :=
  match JS.given date_field with
  | Some s =>
      let parsedDate := Date_parse s in
      if JS.isNaN parsedDate then None else Some parsedDate
  | None => Some (JS.DateAt now)
  end.

(** [POST /api/users/:_id/exercises], lines 83-133. *)
Definition post_exercises (now : Z) (id : string) (form : ExerciseForm)
  (db : Store) : outcome * Store :=
  match JS.given (f_description form), JS.given (f_duration form) with
  | Some descr, Some dur =>
      match User_findById id db with
      | Err e => (Unhandled e, db)
      | Ok None => (Respond 404 (JError "User not found"), db)
      | Ok (Some user) =>
          match exerciseDate now (f_date form) with
          | None => (Respond 400 (JError "Invalid date format"), db)
          | Some d =>
              match Exercise_save
                      (mkInit (u_id user) descr (parseInt dur) (Some d)) db with
              | Ok (savedExercise, db') =>
                  (Respond 200
                     (JExercise (u_id user) (username user)
                        (toDateString (date savedExercise))
                        (JS.stringify (duration savedExercise))
                        (description savedExercise)), db')
              | Err _ =>
                  (Respond 500 (JError "Failed to save exercise"), db)
              end
          end
      end
  | _, _ =>
      (Respond 400 (JError "Description and duration are required"), db)
  end.

(** Lines 147-154: the two entries of [dateQuery]. *)
Definition dateQuery_bound (field : option string) : option JS.Date :=
  match JS.given field with
  | Some s => Some (Date_parse s)
  | None => None
  end.

(** Lines 157-173: the query that is executed.  A Date object is truthy
    even when invalid, so [dateQuery.$gte || 0] is 0 only when [from] was
    not given, and [dateQuery.$lte || new Date()] is the current Date only
    when [to] was not given. *)
Definition logQuery (now : Z) (id : string) (q : LogsQuery) : Query :=
  let gte_ := dateQuery_bound (q_from q) in
  let lte_ := dateQuery_bound (q_to q) in
  let q0 := Exercise_find id in
  let q1 :=
    match gte_, lte_ with
    | None, None => q0
    | _, _ =>
        lte (match lte_ with Some d => BDate d | None => BDate (JS.DateAt now) end)
          (gte (match gte_ with Some d => BDate d | None => BNum 0 end) q0)
    end in
  let q2 :=
    match JS.given (q_lim q) with
    | Some s => limit (parseInt s) q1
    | None => q1
    end in
  sort_date_asc q2.

(** Lines 176-180. *)
Definition formatEntry (ex : Exercise) : LogEntry :=
  mkEntry (description ex) (JS.stringify (duration ex))
    (toDateString (date ex)).

(** [GET /api/users/:_id/logs], lines 136-189. *)
Definition get_logs (now : Z) (id : string) (q : LogsQuery) (db : Store)
  : outcome :=
  match User_findById id db with
  | Err e => Unhandled e
  | Ok None => Respond 404 (JError "User not found")
  | Ok (Some user) =>
      match exec (logQuery now id q) db with
      | Err e => Unhandled e
      | Ok found =>
          let formattedLog := map formatEntry found in
          Respond 200
            (JLog (u_id user) (username user) (List.length formattedLog)
               formattedLog)
      end
  end.

(** The application: each request goes to its handler. *)
Definition serve (r : Request) (db : Store) : outcome * Store :=
  match r with
  | PostUsers name => post_users name db
  | GetUsers => (get_users db, db)
  | PostExercises now id form => post_exercises now id form db
  | GetLogs now id q => (get_logs now id q db, db)
  end.

(** The database after a sequence of requests. *)
Definition run (rs : list Request) (db : Store) : Store :=
  fold_left (fun d r => snd (serve r d)) rs db.

End Handlers.

(* ================================================================== *)
(** ** A concrete platform: Node.js in the UTC time zone

    The statements below hold for every [Platform].  To run the handlers on
    concrete requests one is needed; this one reads decimal and hexadecimal
    integers, rounded to doubles as JavaScript rounds them, dates written
    [YYYY-MM-DD] (which JavaScript reads as midnight UTC) and identifiers
    written as 24 hexadecimal digits, and prints dates as [toDateString]
    does in the UTC zone.  A string stands for its UTF-8 bytes. *)

Module Node.

Definition code (c : ascii) : Z := Z.of_nat (nat_of_ascii c).

(** The white space that [parseInt] skips: TAB, LF, VT, FF, CR and the
    space; U+00A0; and U+1680, U+2000 to U+200A, U+2028, U+2029, U+202F,
    U+205F, U+3000 and U+FEFF, which take two and three bytes. *)
Definition is_space (c : ascii) : bool :=
  let n := code c in ((9 <=? n) && (n <=? 13)) || (n =? 32).

Definition is_space2 (a b : ascii) : bool :=
  (code a =? 194) && (code b =? 160).

Definition is_space3 (a b c : ascii) : bool :=
  let '(x, y, z) := (code a, code b, code c) in
  ((x =? 225) && (y =? 154) && (z =? 128))
  || ((x =? 226) && (y =? 128)
      && (((128 <=? z) && (z <=? 138)) || (z =? 168) || (z =? 169)
          || (z =? 175)))
  || ((x =? 226) && (y =? 129) && (z =? 159))
  || ((x =? 227) && (y =? 128) && (z =? 128))
  || ((x =? 239) && (y =? 187) && (z =? 191)).

Fixpoint skip_spaces (s : string) : string :=
  match s with
  | String a s1 =>
      if is_space a then skip_spaces s1
      else
        match s1 with
        | String b s2 =>
            if is_space2 a b then skip_spaces s2
            else
              match s2 with
              | String c s3 =>
                  if is_space3 a b c then skip_spaces s3 else s
              | EmptyString => s
              end
        | EmptyString => s
        end
  | EmptyString => s
  end.

Definition digit_of (c : ascii) : option Z :=
  let n := code c in
  if (48 <=? n) && (n <=? 57) then Some (n - 48)
  else if (97 <=? n) && (n <=? 102) then Some (n - 87)
  else if (65 <=? n) && (n <=? 70) then Some (n - 55)
  else None.

(** The longest prefix of digits of the radix, [acc] being what was read
    so far ([None]: nothing yet). *)
Fixpoint read_digits (radix : Z) (s : string) (acc : option Z) : option Z :=
  match s with
  | String c s' =>
      match digit_of c with
      | Some d =>
          if d <? radix
          then read_digits radix s'
                 (Some (match acc with Some a => a * radix + d | None => d end))
          else acc
      | None => acc
      end
  | EmptyString => acc
  end.

(** The double nearest to an integer (ties to the even significand of 53
    bits), an infinity when it is beyond the range of the doubles. *)
Definition to_double (n : Z) : JS.number :=
  let a := Z.abs n in
  let e := Z.log2 a - 52 in
  let r :=
    if e <=? 0 then a
    else
      let q := Z.shiftr a e in
      let rest := a - Z.shiftl q e in
      let half := Z.shiftl 1 (e - 1) in
      let q' :=
        if (half <? rest) || ((rest =? half) && Z.odd q) then q + 1 else q in
      Z.shiftl q' e in
  if 2 ^ 1024 <=? r
  then (if n <? 0 then JS.MinusInfinity else JS.PlusInfinity)
  else JS.Num (if n <? 0 then - r else r).

Definition parseInt (s : string) : JS.number :=
  let s := skip_spaces s in
  let '(negative, s) :=
    match s with
    | String "-" s' => (true, s')
    | String "+" s' => (false, s')
    | _ => (false, s)
    end in
  let '(radix, s) :=
    match s with
    | String "0" (String "x" s') => (16, s')
    | String "0" (String "X" s') => (16, s')
    | _ => (10, s)
    end in
  match read_digits radix s None with
  | Some n => to_double (if negative then - n else n)
  | None => JS.NaN
  end.

(** Days from 1970-01-01 to the given day of the proleptic Gregorian
    calendar. *)
Definition days_from_civil (y m d : Z) : Z :=
  let y' := if m <=? 2 then y - 1 else y in
  let era := y' / 400 in
  let yoe := y' - era * 400 in
  let mp := (m + 9) mod 12 in
  let doy := (153 * mp + 2) / 5 + d - 1 in
  let doe := yoe * 365 + yoe / 4 - yoe / 100 + doy in
  era * 146097 + doe - 719468.

(** The converse: year, month and day of a day number. *)
Definition civil_from_days (z : Z) : Z * Z * Z :=
  let z := z + 719468 in
  let era := z / 146097 in
  let doe := z - era * 146097 in
  let yoe := (doe - doe / 1460 + doe / 36524 - doe / 146096) / 365 in
  let doy := doe - (365 * yoe + yoe / 4 - yoe / 100) in
  let mp := (5 * doy + 2) / 153 in
  let d := doy - (153 * mp + 2) / 5 + 1 in
  let m := if mp <? 10 then mp + 3 else mp - 9 in
  let y := yoe + era * 400 in
  (if m <=? 2 then y + 1 else y, m, d).

Definition dec (c : ascii) : option Z :=
  let n := code c in
  if (48 <=? n) && (n <=? 57) then Some (n - 48) else None.

Definition ms_per_day : Z := 86400000.

(** [new Date(s)] for [s] of the form [YYYY-MM-DD]: the month is 01 to 12
    and the day 01 to 31, a day beyond the end of its month running into
    the next month.  Strings of other forms, some of which Node reads as
    dates too, are Invalid Dates here; the examples use none that Node
    reads. *)
Definition Date_parse (s : string) : JS.Date :=
  match s with
  | String y1 (String y2 (String y3 (String y4 (String "-"
      (String m1 (String m2 (String "-"
        (String d1 (String d2 EmptyString))))))))) =>
      match dec y1, dec y2, dec y3, dec y4, dec m1, dec m2, dec d1, dec d2 with
      | Some a, Some b, Some c, Some d, Some e, Some f, Some g, Some h =>
          let y := 1000 * a + 100 * b + 10 * c + d in
          let m := 10 * e + f in
          let dd := 10 * g + h in
          if (1 <=? m) && (m <=? 12) && (1 <=? dd) && (dd <=? 31)
          then JS.DateAt (days_from_civil y m dd * ms_per_day)
          else JS.InvalidDate
      | _, _, _, _, _, _, _, _ => JS.InvalidDate
      end
  | _ => JS.InvalidDate
  end.

Definition digit (n : Z) : string :=
  String (ascii_of_nat (Z.to_nat (48 + n mod 10))) EmptyString.

Definition two_digits (n : Z) : string := digit (n / 10) ++ digit n.

Definition four_digits (n : Z) : string :=
  two_digits (n / 100) ++ two_digits n.

Definition day_name (w : Z) : string :=
  nth (Z.to_nat w) ["Sun"; "Mon"; "Tue"; "Wed"; "Thu"; "Fri"; "Sat"] "".

Definition month_name (m : Z) : string :=
  nth (Z.to_nat (m - 1))
    ["Jan"; "Feb"; "Mar"; "Apr"; "May"; "Jun";
     "Jul"; "Aug"; "Sep"; "Oct"; "Nov"; "Dec"] "".

(** [toDateString()] in the UTC zone, for the years 0 to 9999. *)
Definition toDateString (ms : Z) : string :=
  let days := ms / ms_per_day in
  let '(y, m, d) := civil_from_days days in
  day_name ((days + 4) mod 7) ++ " " ++ month_name m ++ " "
    ++ two_digits d ++ " " ++ four_digits y.

Fixpoint all_hex (s : string) : bool :=
  match s with
  | String c s' =>
      match digit_of c with Some _ => all_hex s' | None => false end
  | EmptyString => true
  end.

(** The text of an ObjectId is 24 hexadecimal digits. *)
Definition castObjectId (s : string) : option ObjectId :=
  if (Nat.eqb (String.length s) 24) && all_hex s
  then match read_digits 16 s None with
       | Some n => Some (Z.to_N n)
       | None => None
       end
  else None.

(** The platform; the process is taken to have started on 2023-11-14 at
    22:13:20 UTC. *)
Definition platform : Platform :=
  Build_Platform parseInt Date_parse toDateString castObjectId
    1700000000000 true true.

End Node.

(* ================================================================== *)
(** ** A small run of the application, used in the examples *)

Module Demo.

#[local] Existing Instance Node.platform.

(** The time of every request of the run: 2023-11-14, 22:13:20 UTC. *)
Definition t_req : Z := 1700000000000.

(** The text of the identifier of the first user created. *)
Definition alice : string := "000000000000000000000001".

(** The text of an identifier that no document of the run has. *)
Definition nobody : string := "0000000000000000000000ff".

Definition add (descr dur : string) (date_field : option string)
  (db : Store) : Store :=
  snd (post_exercises t_req alice
         (mkForm (Some descr) (Some dur) date_field) db).

(** One user. *)
Definition db1 : Store := snd (post_users (Some "alice") empty).

(** One user and three exercises, dated before 1970, in the past of the
    requests, and in their future. *)
Definition db3 : Store :=
  add "ski" "45" (Some "2030-01-01")
    (add "swim" "20" (Some "1960-05-05")
       (add "run" "30" (Some "2023-01-15") db1)).

(** The documents of [db3]. *)
Definition user1 : User := mkUser 1%N "alice".
Definition run1 : Exercise := mkExercise 2%N 1%N "run" (JS.Num 30) 1673740800000.
Definition swim : Exercise := mkExercise 3%N 1%N "swim" (JS.Num 20) (-304819200000).
Definition ski : Exercise := mkExercise 4%N 1%N "ski" (JS.Num 45) 1893456000000.

(** Their entries in a log. *)
Definition run_entry : LogEntry := mkEntry "run" (JS.JNum 30) "Sun Jan 15 2023".
Definition swim_entry : LogEntry := mkEntry "swim" (JS.JNum 20) "Thu May 05 1960".
Definition ski_entry : LogEntry := mkEntry "ski" (JS.JNum 45) "Tue Jan 01 2030".

(** A form with description and duration and no date. *)
Definition run30 : ExerciseForm := mkForm (Some "run") (Some "30") None.

(** A form whose duration is more than digits, and what follows the
    request that carries it. *)
Definition row15 : ExerciseForm :=
  mkForm (Some "row") (Some "15 min") (Some "2024-02-29").

Definition later : list Request :=
  [PostUsers (Some "bob"); PostExercises t_req alice run30].

Definition db_later : Store :=
  run later (snd (post_exercises t_req alice row15 db3)).

(** A duration of 400 digits, too long for a double, in a form. *)
Fixpoint nines (n : nat) : string :=
  match n with
  | O => EmptyString
  | S n' => String "9" (nines n')
  end.


(** The text of the identifier the next document of [db3] gets, and [db3]
    with a second user under it who has one exercise. *)
Definition bob : string := "000000000000000000000005".

Definition db_two : Store :=
  snd (post_exercises t_req bob
         (mkForm (Some "walk") (Some "60") (Some "2023-06-01"))
         (snd (post_users (Some "bob") db3))).

End Demo.

(* ================================================================== *)
(** * Properties *)

(** ** Request fields *)

Lemma given_Some (field : option string) (s : string) :
  JS.given field = Some s -> field = Some s /\ s <> "".
Proof.
  destruct field as [t|]; simpl; [|discriminate].
  destruct (String.eqb_spec t "") as [->|Hne]; [discriminate|].
  intros [= <-]. split; [reflexivity|exact Hne].
Qed.

Lemma given_None (field : option string) :
  JS.given field = None -> field = None \/ field = Some "".
Proof.
  destruct field as [t|]; simpl; [|now left].
  destruct (String.eqb_spec t "") as [->|Hne]; [now right|discriminate].
Qed.

Lemma given_nonempty (s : string) : s <> "" -> JS.given (Some s) = Some s.
Proof.
  intros Hne. simpl. destruct (String.eqb_spec s ""); [contradiction|reflexivity].
Qed.

(** ** Identifiers *)

Lemma max_id_ge (ids : list ObjectId) (x : ObjectId) :
  In x ids -> (x <= max_id ids)%N.
Proof.
  induction ids as [|y ids IH]; simpl; [contradiction|].
  intros [->|Hin]; [apply N.le_max_l|].
  specialize (IH Hin). lia.
Qed.

Lemma fresh_id_new (db : Store) : ~ In (fresh_id db) (all_ids db).
Proof.
  intros Hin. apply max_id_ge in Hin. unfold fresh_id in Hin. lia.
Qed.

Lemma fresh_id_not_user (db : Store) : ~ In (fresh_id db) (map u_id (users db)).
Proof.
  intros Hin. apply (fresh_id_new db). unfold all_ids.
  apply in_or_app. now left.
Qed.

(** ** Sorting by date *)

Lemma insert_by_date_perm (x : Exercise) (l : list Exercise) :
  Permutation (insert_by_date x l) (x :: l).
Proof.
  induction l as [|y l IH]; simpl; [reflexivity|].
  destruct (date x <=? date y); [reflexivity|].
  rewrite IH. apply perm_swap.
Qed.

Lemma sort_by_date_perm (l : list Exercise) : Permutation (sort_by_date l) l.
Proof.
  induction l as [|x l IH]; simpl; [reflexivity|].
  rewrite insert_by_date_perm. now constructor.
Qed.

Lemma sort_by_date_In (l : list Exercise) (e : Exercise) :
  In e (sort_by_date l) <-> In e l.
Proof.
  split; apply Permutation_in;
    [apply sort_by_date_perm | symmetry; apply sort_by_date_perm].
Qed.

Lemma sort_by_date_length (l : list Exercise) :
  List.length (sort_by_date l) = List.length l.
Proof. apply Permutation_length, sort_by_date_perm. Qed.

Lemma insert_by_date_sorted (x : Exercise) (l : list Exercise) :
  StronglySorted date_le l -> StronglySorted date_le (insert_by_date x l).
Proof.
  induction 1 as [|y l Hs IH Hy]; simpl.
  - repeat constructor.
  - destruct (Z.leb_spec (date x) (date y)) as [Hle|Hgt].
    + constructor; [now constructor|].
      constructor; [exact Hle|].
      eapply Forall_impl; [|exact Hy].
      unfold date_le. intros; lia.
    + constructor; [exact IH|].
      eapply Permutation_Forall; [symmetry; apply insert_by_date_perm|].
      constructor; [unfold date_le; lia|exact Hy].
Qed.

Lemma sort_by_date_sorted (l : list Exercise) :
  StronglySorted date_le (sort_by_date l).
Proof.
  induction l as [|x l IH]; simpl; [constructor|].
  now apply insert_by_date_sorted.
Qed.

(** A sorted list cut in two: both parts are sorted and nothing in the
    second part comes before anything in the first. *)
Lemma StronglySorted_app_inv (l1 l2 : list Exercise) :
  StronglySorted date_le (l1 ++ l2) ->
  StronglySorted date_le l1 /\
  Forall (fun a => Forall (date_le a) l2) l1.
Proof.
  induction l1 as [|x l1 IH]; simpl; intros Hs.
  - split; constructor.
  - apply StronglySorted_inv in Hs. destruct Hs as [Hs Hx].
    destruct (IH Hs) as [Hs1 Hcross].
    apply Forall_app in Hx. destruct Hx as [Hx1 Hx2].
    split; constructor; assumption.
Qed.

Section Facts.

Context {P : Platform}.

(** ** Looking a user up *)

Lemma findById_Some (id : string) (db : Store) (user : User) :
  User_findById id db = Ok (Some user) ->
  castObjectId id = Some (u_id user) /\ In user (users db).
Proof.
  unfold User_findById.
  destruct (castObjectId id) as [oid|]; [|discriminate].
  intros [= Hfind]. apply find_some in Hfind.
  destruct Hfind as [Hin Heq]. apply N.eqb_eq in Heq.
  now subst oid.
Qed.

Lemma findById_malformed (id : string) (db : Store) :
  castObjectId id = None -> User_findById id db = Err (CastError "_id").
Proof. unfold User_findById. now intros ->. Qed.

Lemma findById_unknown (id : string) (oid : ObjectId) (db : Store) :
  castObjectId id = Some oid ->
  ~ In oid (map u_id (users db)) ->
  User_findById id db = Ok None.
Proof.
  unfold User_findById. intros -> Hnot.
  destruct (find _ (users db)) as [u|] eqn:Hfind; [|reflexivity].
  apply find_some in Hfind. destruct Hfind as [Hin Heq].
  apply N.eqb_eq in Heq. exfalso. apply Hnot. subst oid.
  now apply in_map.
Qed.

(** ** Creating users *)

Lemma has_username_true (name : string) (db : Store) :
  has_username name db = true <->
  exists u, In u (users db) /\ username u = name.
Proof.
  unfold has_username. rewrite existsb_exists.
  split; intros [u [Hin Hu]]; exists u; split; trivial;
    now apply String.eqb_eq.
Qed.

Lemma has_username_false (name : string) (db : Store) :
  has_username name db = false <->
  forall u, In u (users db) -> username u <> name.
Proof.
  split.
  - intros Hf u Hin Heq.
    assert (has_username name db = true) as Ht
      by (apply has_username_true; now exists u).
    congruence.
  - intros Hall. destruct (has_username name db) eqn:Hh; [|reflexivity].
    apply has_username_true in Hh. destruct Hh as [u [Hin Heq]].
    now destruct (Hall u Hin).
Qed.

(** The handler of [POST /api/users] answers 200 or 500, nothing else. *)
Lemma post_users_status (name : option string) (db : Store) :
  exists status json,
    fst (post_users name db) = Respond status json /\
    (status = 200 \/ status = 500)%nat.
Proof.
  unfold post_users.
  destruct (User_save name db) as [[u db']|e]; simpl; eauto.
Qed.

Lemma post_users_duplicate (name : string) (db : Store) :
  has_username name db = true ->
  post_users (Some name) db
  = (Respond 500 (JError "Could not create user"), db).
Proof.
  intros Hdup. unfold post_users, User_save.
  destruct (name =? "")%string; [reflexivity|].
  now rewrite Hdup.
Qed.

(** C5.  Creating a user whose [username] an existing User already has
    fails with status 500 and the fixed body [{error: "Could not create
    user"}], which says nothing of the cause, and the database is left as it
    was, so no second User with that username is stored.  Creating a user
    with a username (a non-empty string) that no User has answers 200 with
    that username and an identifier that no stored User has, and stores
    exactly that User. *)
Theorem create_user_duplicate_or_fresh (name : string) (db : Store) :
  ((exists u, In u (users db) /\ username u = name) ->
   post_users (Some name) db
   = (Respond 500 (JError "Could not create user"), db))
  /\
  (name <> "" ->
   (forall u, In u (users db) -> username u <> name) ->
   exists id,
     ~ In id (map u_id (users db)) /\
     post_users (Some name) db
     = (Respond 200 (JUser name id),
        mkStore (users db ++ [mkUser id name]) (exercises db))).
Proof.
  split.
  - intros Hdup. apply has_username_true in Hdup.
    now apply post_users_duplicate.
  - intros Hne Hnew. apply has_username_false in Hnew.
    exists (fresh_id db). split; [apply fresh_id_not_user|].
    unfold post_users, User_save.
    destruct (String.eqb_spec name ""); [contradiction|].
    now rewrite Hnew.
Qed.

(** C10.  A create-user request whose [username] is missing or empty is
    answered with status 500 and the body [{error: "Could not create
    user"}], the very response a duplicate username gets, and no User is
    stored; the handler has no 400 answer at all. *)
Theorem create_user_without_username (name : option string) (db : Store) :
  JS.given name = None ->
  post_users name db = (Respond 500 (JError "Could not create user"), db)
  /\
  (forall dup db',
     (exists u, In u (users db') /\ username u = dup) ->
     fst (post_users (Some dup) db') = fst (post_users name db))
  /\
  (forall any db' status json,
     fst (post_users any db') = Respond status json -> status <> 400%nat).
Proof.
  intros Hmissing.
  assert (post_users name db
          = (Respond 500 (JError "Could not create user"), db)) as Hfail.
  { apply given_None in Hmissing. destruct Hmissing as [-> | ->]; reflexivity. }
  split; [exact Hfail|]. split.
  - intros dup db' Hdup. apply has_username_true in Hdup.
    now rewrite (post_users_duplicate dup db' Hdup), Hfail.
  - intros any db' status json Heq.
    destruct (post_users_status any db') as [st [js [Hr Hst]]].
    rewrite Heq in Hr. injection Hr as -> _.
    destruct Hst as [-> | ->]; discriminate.
Qed.

(** ** Adding exercises *)

Lemma exerciseDate_omitted (now : Z) (date_field : option string) :
  JS.given date_field = None ->
  exerciseDate now date_field = Some (JS.DateAt now).
Proof. unfold exerciseDate. now intros ->. Qed.

Lemma exerciseDate_invalid (now : Z) (date_field : option string) (s : string) :
  JS.given date_field = Some s ->
  Date_parse s = JS.InvalidDate ->
  exerciseDate now date_field = None.
Proof. unfold exerciseDate. now intros -> ->. Qed.

(** What the handler does once the fields are present and the user is
    found. *)
Lemma post_exercises_found (now : Z) (id : string) (form : ExerciseForm)
  (db : Store) (user : User) (descr dur : string) :
  JS.given (f_description form) = Some descr ->
  JS.given (f_duration form) = Some dur ->
  User_findById id db = Ok (Some user) ->
  post_exercises now id form db =
  match exerciseDate now (f_date form) with
  | None => (Respond 400 (JError "Invalid date format"), db)
  | Some d =>
      match Exercise_save
              (mkInit (u_id user) descr (parseInt dur) (Some d)) db with
      | Ok (saved, db') =>
          (Respond 200
             (JExercise (u_id user) (username user)
                (toDateString (date saved)) (JS.stringify (duration saved))
                (description saved)), db')
      | Err _ => (Respond 500 (JError "Failed to save exercise"), db)
      end
  end.
Proof. unfold post_exercises. now intros -> -> ->. Qed.

(** Saving a well-formed exercise appends it, unchanged. *)
Lemma Exercise_save_ok (uid : ObjectId) (descr : string) (n ms : Z)
  (db : Store) :
  descr <> "" ->
  Exercise_save (mkInit uid descr (JS.Num n) (Some (JS.DateAt ms))) db
  = Ok (mkExercise (fresh_id db) uid descr (JS.Num n) ms,
        mkStore (users db)
          (exercises db
           ++ [mkExercise (fresh_id db) uid descr (JS.Num n) ms])).
Proof.
  intros Hne. unfold Exercise_save; simpl.
  destruct (String.eqb_spec descr ""); [contradiction|reflexivity].
Qed.

(** C2.  When [date] is omitted (and description and duration are given,
    the duration reads as a number, and the user exists), the Exercise that
    is stored is dated at the moment of the request, whatever Date the
    schema captured when the process started, and the response carries the
    date string of that moment. *)
Theorem add_exercise_default_date (now : Z) (id : string)
  (form : ExerciseForm) (db : Store) (user : User)
  (descr dur : string) (n : Z) :
  JS.given (f_description form) = Some descr ->
  JS.given (f_duration form) = Some dur ->
  parseInt dur = JS.Num n ->
  JS.given (f_date form) = None ->
  User_findById id db = Ok (Some user) ->
  exists ex,
    post_exercises now id form db
    = (Respond 200
         (JExercise (u_id user) (username user) (toDateString now)
            (JS.JNum n) descr),
       mkStore (users db) (exercises db ++ [ex]))
    /\ date ex = now
    /\ (now <> schemaLoadTime -> date ex <> schemaLoadTime)
    /\ userId ex = u_id user
    /\ description ex = descr
    /\ duration ex = JS.Num n.
Proof.
  intros Hdescr Hdur Hn Hdate Huser.
  rewrite (post_exercises_found now id form db user descr dur Hdescr Hdur Huser).
  rewrite (exerciseDate_omitted now _ Hdate), Hn.
  apply given_Some in Hdescr. destruct Hdescr as [_ Hne].
  rewrite (Exercise_save_ok _ _ _ _ _ Hne). simpl.
  eexists. split; [reflexivity|]. simpl. auto.
Qed.

(** C8.  When description and duration are given, the user exists, and a
    [date] is supplied (a non-empty string) that does not parse (an Invalid
    Date), the handler answers 400 with [{error: "Invalid date format"}]
    and stores nothing. *)
Theorem add_exercise_invalid_date (now : Z) (id : string)
  (form : ExerciseForm) (db : Store) (user : User)
  (descr dur s : string) :
  JS.given (f_description form) = Some descr ->
  JS.given (f_duration form) = Some dur ->
  User_findById id db = Ok (Some user) ->
  JS.given (f_date form) = Some s ->
  Date_parse s = JS.InvalidDate ->
  post_exercises now id form db
  = (Respond 400 (JError "Invalid date format"), db).
Proof.
  intros Hdescr Hdur Huser Hdate Hinvalid.
  rewrite (post_exercises_found now id form db user descr dur Hdescr Hdur Huser).
  now rewrite (exerciseDate_invalid now _ s Hdate Hinvalid).
Qed.

(** When description and duration are given and the identifier is the text
    of an ObjectId that no User has, the handler answers 404 and stores
    nothing. *)
Lemma post_exercises_unknown_user (now : Z) (id : string) (oid : ObjectId)
  (form : ExerciseForm) (db : Store) (descr dur : string) :
  JS.given (f_description form) = Some descr ->
  JS.given (f_duration form) = Some dur ->
  castObjectId id = Some oid ->
  ~ In oid (map u_id (users db)) ->
  post_exercises now id form db
  = (Respond 404 (JError "User not found"), db).
Proof.
  intros Hdescr Hdur Hcast Hnot. unfold post_exercises.
  now rewrite Hdescr, Hdur, (findById_unknown id oid db Hcast Hnot).
Qed.

(** When the identifier is not the text of an ObjectId, the lookup on line
    95 rejects; it is outside the [try], so no response is sent.  Nothing
    is stored. *)
Lemma post_exercises_malformed_id (now : Z) (id : string)
  (form : ExerciseForm) (db : Store) (descr dur : string) :
  JS.given (f_description form) = Some descr ->
  JS.given (f_duration form) = Some dur ->
  castObjectId id = None ->
  post_exercises now id form db = (Unhandled (CastError "_id"), db).
Proof.
  intros Hdescr Hdur Hcast. unfold post_exercises.
  now rewrite Hdescr, Hdur, (findById_malformed id db Hcast).
Qed.

(** ** The query of the log endpoint *)

Lemma logQuery_userId (now : Z) (id : string) (q : LogsQuery) :
  q_userId (logQuery now id q) = id.
Proof.
  unfold logQuery.
  destruct (dateQuery_bound (q_from q)), (dateQuery_bound (q_to q)),
    (JS.given (q_lim q)); reflexivity.
Qed.

Lemma logQuery_sort (now : Z) (id : string) (q : LogsQuery) :
  q_sort (logQuery now id q) = true.
Proof. reflexivity. Qed.

Lemma logQuery_limit (now : Z) (id : string) (q : LogsQuery) :
  q_limit (logQuery now id q) = option_map parseInt (JS.given (q_lim q)).
Proof.
  unfold logQuery.
  destruct (dateQuery_bound (q_from q)), (dateQuery_bound (q_to q)),
    (JS.given (q_lim q)); reflexivity.
Qed.

(** The lower bound of the query: [from] when given; 0, the epoch, when
    only [to] is given; none when neither is. *)
Lemma logQuery_gte (now : Z) (id : string) (q : LogsQuery) :
  q_gte (logQuery now id q) =
  match dateQuery_bound (q_from q), dateQuery_bound (q_to q) with
  | Some d, _ => Some (BDate d)
  | None, Some _ => Some (BNum 0)
  | None, None => None
  end.
Proof.
  unfold logQuery.
  destruct (dateQuery_bound (q_from q)), (dateQuery_bound (q_to q)),
    (JS.given (q_lim q)); reflexivity.
Qed.

(** The upper bound of the query: [to] when given; the time of the request
    when only [from] is given; none when neither is. *)
Lemma logQuery_lte (now : Z) (id : string) (q : LogsQuery) :
  q_lte (logQuery now id q) =
  match dateQuery_bound (q_from q), dateQuery_bound (q_to q) with
  | _, Some d => Some (BDate d)
  | Some _, None => Some (BDate (JS.DateAt now))
  | None, None => None
  end.
Proof.
  unfold logQuery.
  destruct (dateQuery_bound (q_from q)), (dateQuery_bound (q_to q)),
    (JS.given (q_lim q)); reflexivity.
Qed.

Lemma selects_true (uid : ObjectId) (lo hi : option Z) (e : Exercise) :
  selects uid lo hi e = true <->
  userId e = uid /\
  match lo with Some l => l <= date e | None => True end /\
  match hi with Some h => date e <= h | None => True end.
Proof.
  unfold selects, above, below.
  rewrite !andb_true_iff, N.eqb_eq.
  destruct lo, hi; rewrite ?Z.leb_le; intuition.
Qed.

(** A sorted query whose conditions pass their casts: filter, sort, limit. *)
Lemma exec_sorted (q : Query) (db : Store) (uid : ObjectId)
  (lo hi : option Z) :
  castObjectId (q_userId q) = Some uid ->
  cast_bound (q_gte q) = Ok lo ->
  cast_bound (q_lte q) = Ok hi ->
  q_sort q = true ->
  exec q db
  = apply_limit (q_limit q)
      (sort_by_date (filter (selects uid lo hi) (exercises db))).
Proof. unfold exec. now intros -> -> -> ->. Qed.

(** A bound that fails its cast makes the whole query fail. *)
Lemma exec_invalid_bound (q : Query) (db : Store) :
  q_gte q = Some (BDate JS.InvalidDate) \/
  q_lte q = Some (BDate JS.InvalidDate) ->
  exists e, exec q db = Err e.
Proof.
  unfold exec. intros [Hb|Hb]; rewrite Hb;
    destruct (castObjectId (q_userId q)); simpl; eauto.
  destruct (cast_bound (q_gte q)); simpl; eauto.
Qed.

(** The handler of the log endpoint once the user is found. *)
Lemma get_logs_found (now : Z) (id : string) (q : LogsQuery) (db : Store)
  (user : User) :
  User_findById id db = Ok (Some user) ->
  get_logs now id q db =
  match exec (logQuery now id q) db with
  | Ok found =>
      Respond 200
        (JLog (u_id user) (username user) (List.length found)
           (map formatEntry found))
  | Err e => Unhandled e
  end.
Proof.
  unfold get_logs. intros ->.
  destruct (exec (logQuery now id q) db); [|reflexivity].
  now rewrite length_map.
Qed.

(** The limit is applied to what the same request finds without it. *)
Lemma exec_logQuery_limit (now : Z) (id : string) (q : LogsQuery)
  (db : Store) :
  exec (logQuery now id q) db
  = bind (exec (logQuery now id (mkLogsQuery (q_from q) (q_to q) None)) db)
      (apply_limit (option_map parseInt (JS.given (q_lim q)))).
Proof.
  unfold exec.
  rewrite !logQuery_userId, !logQuery_gte, !logQuery_lte, !logQuery_limit.
  simpl q_from; simpl q_to; simpl q_lim.
  rewrite !logQuery_sort.
  destruct (castObjectId id); simpl; [|reflexivity].
  destruct (cast_bound _); simpl; [|reflexivity].
  destruct (cast_bound _); simpl; reflexivity.
Qed.

(** The bounds of the query after their casts, when each given bound
    parses. *)
Lemma logQuery_casts (now : Z) (id : string) (q : LogsQuery)
  (from to : option Z) :
  dateQuery_bound (q_from q) = option_map JS.DateAt from ->
  dateQuery_bound (q_to q) = option_map JS.DateAt to ->
  cast_bound (q_gte (logQuery now id q))
  = Ok (match from, to with
        | Some f, _ => Some f
        | None, Some _ => Some 0
        | None, None => None
        end)
  /\
  cast_bound (q_lte (logQuery now id q))
  = Ok (match from, to with
        | _, Some t => Some t
        | Some _, None => Some now
        | None, None => None
        end).
Proof.
  intros Hfrom Hto. rewrite logQuery_gte, logQuery_lte, Hfrom, Hto.
  destruct from, to; split; reflexivity.
Qed.

(** C1, as the code has it.  For a request on an existing user whose given
    bounds parse, the exercises that pass the date filter are exactly the
    user's exercises dated within the window, both ends included: from
    [from] to [to] when both are given; from [from] to the time of the
    request when only [from] is given; from the epoch (time value 0) to
    [to] when only [to] is given; all of them when neither is given.  The
    response lists these in ascending order of date, cut by the limit. *)
Theorem get_logs_date_window (now : Z) (id : string) (q : LogsQuery)
  (db : Store) (user : User) (from to : option Z) :
  User_findById id db = Ok (Some user) ->
  dateQuery_bound (q_from q) = option_map JS.DateAt from ->
  dateQuery_bound (q_to q) = option_map JS.DateAt to ->
  exists candidates,
    (forall e,
       In e candidates <->
       In e (exercises db) /\ userId e = u_id user /\
       match from, to with
       | Some f, Some t => f <= date e <= t
       | Some f, None => f <= date e <= now
       | None, Some t => 0 <= date e <= t
       | None, None => True
       end)
    /\ StronglySorted date_le candidates
    /\ get_logs now id q db =
       match apply_limit (option_map parseInt (JS.given (q_lim q)))
               candidates with
       | Ok found =>
           Respond 200
             (JLog (u_id user) (username user) (List.length found)
                (map formatEntry found))
       | Err e => Unhandled e
       end.
Proof.
  intros Huser Hfrom Hto.
  destruct (findById_Some id db user Huser) as [Hcast _].
  destruct (logQuery_casts now id q from to Hfrom Hto) as [Hlo Hhi].
  set (lo := match from, to with
             | Some f, _ => Some f
             | None, Some _ => Some 0
             | None, None => None
             end) in Hlo.
  set (hi := match from, to with
             | _, Some t => Some t
             | Some _, None => Some now
             | None, None => None
             end) in Hhi.
  exists (sort_by_date (filter (selects (u_id user) lo hi) (exercises db))).
  split; [|split].
  - intros e. rewrite sort_by_date_In, filter_In, selects_true.
    subst lo hi. destruct from, to; intuition lia.
  - apply sort_by_date_sorted.
  - rewrite (get_logs_found now id q db user Huser).
    rewrite (exec_sorted (logQuery now id q) db (u_id user) lo hi);
      rewrite ?logQuery_userId, ?logQuery_limit; auto using logQuery_sort.
Qed.

Lemma exec_nolimit_sorted (now : Z) (id : string) (from to : option string)
  (db : Store) (matching : list Exercise) :
  exec (logQuery now id (mkLogsQuery from to None)) db = Ok matching ->
  StronglySorted date_le matching.
Proof.
  unfold exec. rewrite logQuery_limit, logQuery_sort. simpl.
  destruct (castObjectId _); simpl; [|discriminate].
  destruct (cast_bound _); simpl; [|discriminate].
  destruct (cast_bound _); simpl; [|discriminate].
  intros [= <-]. apply sort_by_date_sorted.
Qed.

(** C3, as the code has it.  For a request with [limit] = n, n at least 1,
    on a user for whom the same request without limit finds more than n
    exercises, exactly n records are returned; they are n of the matching
    exercises, in ascending order of date, and no matching exercise that is
    left out is dated before one that is returned. *)
Theorem get_logs_limit (now : Z) (id : string) (from to lim : option string)
  (db : Store) (user : User) (matching : list Exercise) (s : string) (n : Z) :
  User_findById id db = Ok (Some user) ->
  exec (logQuery now id (mkLogsQuery from to None)) db = Ok matching ->
  JS.given lim = Some s ->
  parseInt s = JS.Num n ->
  1 <= n ->
  (Z.to_nat n < List.length matching)%nat ->
  exists found rest,
    get_logs now id (mkLogsQuery from to lim) db
    = Respond 200
        (JLog (u_id user) (username user) (Z.to_nat n)
           (map formatEntry found))
    /\ List.length found = Z.to_nat n
    /\ Permutation matching (found ++ rest)
    /\ StronglySorted date_le found
    /\ Forall (fun a => Forall (date_le a) rest) found.
Proof.
  intros Huser Hexec Hlim Hn Hpos Hmore.
  pose proof (exec_nolimit_sorted now id from to db matching Hexec) as Hsorted.
  exists (firstn (Z.to_nat n) matching), (skipn (Z.to_nat n) matching).
  assert (List.length (firstn (Z.to_nat n) matching) = Z.to_nat n) as Hlen
    by (apply firstn_length_le; lia).
  rewrite <- (firstn_skipn (Z.to_nat n) matching) in Hsorted.
  apply StronglySorted_app_inv in Hsorted. destruct Hsorted as [Hs Hcross].
  repeat split; trivial; [|now rewrite firstn_skipn].
  rewrite (get_logs_found now _ _ db user Huser), exec_logQuery_limit.
  simpl q_from; simpl q_to; simpl q_lim.
  rewrite Hexec, Hlim. simpl. rewrite Hn. simpl.
  destruct (Z.eqb_spec n 0) as [Hz|_]; [lia|].
  rewrite Zabs2Nat.abs_nat_nonneg by lia.
  now rewrite Hlen.
Qed.

Lemma bound_parses (field : option string) :
  dateQuery_bound field <> Some JS.InvalidDate ->
  exists v, dateQuery_bound field = option_map JS.DateAt v.
Proof.
  destruct (dateQuery_bound field) as [[|ms]|]; intros Hne.
  - now destruct Hne.
  - now exists (Some ms).
  - now exists None.
Qed.

Lemma apply_limit_number (lim : option JS.number) (l : list Exercise) :
  (forall m, lim = Some m -> exists n, m = JS.Num n) ->
  exists found, apply_limit lim l = Ok found.
Proof.
  destruct lim as [m|]; simpl; intros Hfin; [|eauto].
  destruct (Hfin m eq_refl) as [n ->].
  destruct (n =? 0); eauto.
Qed.

(** C4, as the code has it.  On an existing user the handler has no
    validation of the date filters and no error response: whenever it
    answers, the status is 200 and the body has the shape [{_id, username,
    count, log}]; and it does answer whenever each bound that is given
    parses and the limit, if given, reads as a number (a finite one: not
    NaN, and not the infinity that a run of digits too long for a double
    reads as). *)
Theorem get_logs_no_validation (now : Z) (id : string) (q : LogsQuery)
  (db : Store) (user : User) :
  User_findById id db = Ok (Some user) ->
  (forall status json,
     get_logs now id q db = Respond status json ->
     status = 200%nat /\
     exists found,
       json = JLog (u_id user) (username user) (List.length found)
                (map formatEntry found))
  /\
  (dateQuery_bound (q_from q) <> Some JS.InvalidDate ->
   dateQuery_bound (q_to q) <> Some JS.InvalidDate ->
   (forall s, JS.given (q_lim q) = Some s ->
              exists n, parseInt s = JS.Num n) ->
   exists found,
     get_logs now id q db
     = Respond 200
         (JLog (u_id user) (username user) (List.length found)
            (map formatEntry found))).
Proof.
  intros Huser. rewrite (get_logs_found now id q db user Huser). split.
  - intros status json.
    destruct (exec (logQuery now id q) db) as [found|e]; [|discriminate].
    intros [= <- <-]. split; [reflexivity|now exists found].
  - intros Hfrom Hto Hlim.
    destruct (bound_parses _ Hfrom) as [from Hf].
    destruct (bound_parses _ Hto) as [to Ht].
    destruct (findById_Some id db user Huser) as [Hcast _].
    destruct (logQuery_casts now id q from to Hf Ht) as [Hlo Hhi].
    rewrite (exec_sorted (logQuery now id q) db (u_id user) _ _
               ltac:(now rewrite logQuery_userId) Hlo Hhi
               (logQuery_sort now id q)).
    rewrite logQuery_limit.
    destruct (apply_limit_number
                (option_map parseInt (JS.given (q_lim q)))
                (sort_by_date
                   (filter
                      (selects (u_id user)
                         match from, to with
                         | Some f, _ => Some f
                         | None, Some _ => Some 0
                         | None, None => None
                         end
                         match from, to with
                         | _, Some t => Some t
                         | Some _, None => Some now
                         | None, None => None
                         end) (exercises db)))) as [found Hfound].
    { destruct (JS.given (q_lim q)) as [s|]; simpl; [|discriminate].
      intros m [= <-]. now apply (Hlim s). }
    rewrite Hfound. now exists found.
Qed.

(** With a given bound that does not parse, the query fails its cast and
    the handler, which awaits it outside any [try], sends nothing. *)
Lemma get_logs_invalid_bound (now : Z) (id : string) (q : LogsQuery)
  (db : Store) (user : User) :
  User_findById id db = Ok (Some user) ->
  dateQuery_bound (q_from q) = Some JS.InvalidDate \/
  dateQuery_bound (q_to q) = Some JS.InvalidDate ->
  exists e, get_logs now id q db = Unhandled e.
Proof.
  intros Huser Hbad. rewrite (get_logs_found now id q db user Huser).
  destruct (exec_invalid_bound (logQuery now id q) db) as [e He].
  - rewrite logQuery_gte, logQuery_lte.
    destruct Hbad as [Hb|Hb]; rewrite Hb; [now left|].
    right. now destruct (dateQuery_bound (q_from q)).
  - rewrite He. now exists e.
Qed.

(** C9.  In every response of the log endpoint, [count] is the number of
    entries of [log]: the records the query returned, after the date filter
    and the limit. *)
Theorem get_logs_count (now : Z) (id : string) (q : LogsQuery) (db : Store)
  (status : nat) (oid : ObjectId) (name : string) (count : nat)
  (log : list LogEntry) :
  get_logs now id q db = Respond status (JLog oid name count log) ->
  count = List.length log /\
  exists found,
    exec (logQuery now id q) db = Ok found /\
    log = map formatEntry found /\
    count = List.length found.
Proof.
  unfold get_logs.
  destruct (User_findById id db) as [[user|]|e]; try discriminate.
  destruct (exec (logQuery now id q) db) as [found|e]; [|discriminate].
  intros [= _ _ _ <- <-]. split; [reflexivity|].
  exists found. now rewrite length_map.
Qed.

(** ** Documents are only ever added *)

Lemma find_app (f : User -> bool) (l l' : list User) (u : User) :
  find f l = Some u -> find f (l ++ l') = Some u.
Proof.
  induction l as [|x l IH]; simpl; [discriminate|].
  destruct (f x); auto.
Qed.

Lemma User_save_grows (name : option string) (db db' : Store) (u : User) :
  User_save name db = Ok (u, db') ->
  users db' = users db ++ [u] /\ exercises db' = exercises db.
Proof.
  unfold User_save. destruct name as [s|]; [|discriminate].
  destruct (s =? "")%string; [discriminate|].
  destruct (has_username s db); [discriminate|].
  intros [= <- <-]. now split.
Qed.

Lemma Exercise_save_grows (init : ExerciseInit) (db db' : Store)
  (ex : Exercise) :
  Exercise_save init db = Ok (ex, db') ->
  users db' = users db /\ exercises db' = exercises db ++ [ex]
  /\ userId ex = i_userId init
  /\ description ex = i_description init
  /\ i_duration init = duration ex
  /\ duration ex <> JS.NaN
  /\ (forall d, i_date init = Some d -> d = JS.DateAt (date ex)).
Proof.
  unfold Exercise_save.
  destruct (i_description init =? "")%string; simpl; [discriminate|].
  destruct (i_duration init) as [|n| |]; simpl; [discriminate| | |];
    (destruct (i_date init) as [[|ms]|]; simpl; try discriminate;
     intros [= <- <-]; simpl; repeat split; trivial;
     try discriminate; intros d [= <-]; reflexivity).
Qed.

Ltac nothing_added := exists [], []; now rewrite !app_nil_r.

Lemma serve_grows (r : Request) (db : Store) :
  exists us es,
    users (snd (serve r db)) = users db ++ us /\
    exercises (snd (serve r db)) = exercises db ++ es.
Proof.
  destruct r as [name| |now id form|now id q]; simpl.
  - unfold post_users.
    destruct (User_save name db) as [[u db']|e] eqn:Hsave; simpl.
    + apply User_save_grows in Hsave. destruct Hsave as [-> ->].
      exists [u], []. now rewrite app_nil_r.
    + nothing_added.
  - nothing_added.
  - unfold post_exercises.
    destruct (JS.given (f_description form)) as [descr|];
      [destruct (JS.given (f_duration form)) as [dur|]|];
      try nothing_added.
    destruct (User_findById id db) as [[user|]|e];
      try nothing_added.
    destruct (exerciseDate now (f_date form)) as [d|];
      try nothing_added.
    destruct (Exercise_save _ db) as [[ex db']|e] eqn:Hsave; simpl;
      try nothing_added.
    apply Exercise_save_grows in Hsave. destruct Hsave as (-> & -> & _).
    exists [], [ex]. now rewrite app_nil_r.
  - nothing_added.
Qed.

Lemma run_grows (rs : list Request) (db : Store) :
  exists us es,
    users (run rs db) = users db ++ us /\
    exercises (run rs db) = exercises db ++ es.
Proof.
  revert db. induction rs as [|r rs IH]; intros db; simpl.
  - exists [], []. now rewrite !app_nil_r.
  - destruct (IH (snd (serve r db))) as (us & es & Hu & He).
    destruct (serve_grows r db) as (us0 & es0 & Hu0 & He0).
    exists (us0 ++ us), (es0 ++ es).
    unfold run in *. simpl. rewrite Hu, He, Hu0, He0, !app_assoc. now split.
Qed.

Lemma findById_grows (id : string) (db db' : Store) (user : User)
  (us : list User) :
  User_findById id db = Ok (Some user) ->
  users db' = users db ++ us ->
  User_findById id db' = Ok (Some user).
Proof.
  unfold User_findById. destruct (castObjectId id); [|discriminate].
  intros [= Hfind] ->. now rewrite (find_app _ _ us user Hfind).
Qed.

(** ** The database stays consistent *)

Lemma empty_consistent : consistent empty.
Proof. repeat split; constructor. Qed.

Lemma User_save_consistent (name : option string) (db db' : Store) (u : User) :
  consistent db -> User_save name db = Ok (u, db') -> consistent db'.
Proof.
  intros (Hnames & Hids & Hown). unfold User_save.
  destruct name as [s|]; [|discriminate].
  destruct (s =? "")%string; [discriminate|].
  destruct (has_username s db) eqn:Hnew; [discriminate|].
  intros [= <- <-]. unfold consistent; simpl. rewrite !map_app; simpl.
  repeat split.
  - apply NoDup_app; trivial; [repeat constructor; simpl; tauto|].
    intros a Ha [<-|[]]. apply in_map_iff in Ha.
    destruct Ha as (v & Hv & Hin).
    exact (proj1 (has_username_false _ db) Hnew v Hin Hv).
  - apply NoDup_app; trivial; [repeat constructor; simpl; tauto|].
    intros a Ha [<-|[]]. now apply (fresh_id_not_user db).
  - eapply Forall_impl; [|exact Hown].
    intros e He. apply in_or_app. now left.
Qed.

Lemma serve_consistent (r : Request) (db : Store) :
  consistent db -> consistent (snd (serve r db)).
Proof.
  intros Hdb. destruct r as [name| |now id form|now id q]; simpl; trivial.
  - unfold post_users.
    destruct (User_save name db) as [[u db']|e] eqn:Hsave; simpl; trivial.
    exact (User_save_consistent name db db' u Hdb Hsave).
  - unfold post_exercises.
    destruct (JS.given (f_description form)) as [descr|];
      [destruct (JS.given (f_duration form)) as [dur|]|]; trivial.
    destruct (User_findById id db) as [[user|]|e] eqn:Huser; trivial.
    destruct (exerciseDate now (f_date form)) as [d|]; trivial.
    destruct (Exercise_save _ db) as [[ex db']|e] eqn:Hsave; simpl; trivial.
    apply Exercise_save_grows in Hsave. simpl in Hsave.
    destruct Hsave as (Hu & He & Hid & _).
    destruct Hdb as (Hnames & Hids & Hown).
    unfold consistent. rewrite Hu, He. repeat split; trivial.
    apply Forall_app. split; trivial.
    constructor; [|constructor]. rewrite Hid.
    apply in_map. now apply (findById_Some id db user).
Qed.

(** Every database reached from the empty one is consistent. *)
Lemma run_consistent (rs : list Request) (db : Store) :
  consistent db -> consistent (run rs db).
Proof.
  revert db. induction rs as [|r rs IH]; intros db Hdb; simpl; trivial.
  apply IH. now apply serve_consistent.
Qed.



End Facts.

(* ================================================================== *)
(** * The handlers on the concrete platform *)

Example Node_parseInt_30 : Node.parseInt "30" = JS.Num 30.
Proof. reflexivity. Qed.

Example Node_parseInt_abc : Node.parseInt "abc" = JS.NaN.
Proof. reflexivity. Qed.

Example Node_parseInt_prefix : Node.parseInt "  -12px" = JS.Num (-12).
Proof. reflexivity. Qed.

Example Node_parseInt_tie :
  Node.parseInt "9007199254740993" = JS.Num 9007199254740992
  /\ Node.parseInt "9007199254740995" = JS.Num 9007199254740996.
Proof. split; reflexivity. Qed.

Example Node_parseInt_infinite :
  Node.parseInt (Demo.nines 400) = JS.PlusInfinity
  /\ Node.parseInt (String "-" (Demo.nines 400)) = JS.MinusInfinity.
Proof. repeat split; vm_compute; reflexivity. Qed.

Example Node_parseInt_nbsp :
  Node.parseInt
    (String (ascii_of_nat 194) (String (ascii_of_nat 160) " 42"))
  = JS.Num 42.
Proof. reflexivity. Qed.

Example Node_Date_overflow :
  Node.Date_parse "2023-02-30" = JS.DateAt 1677715200000
  /\ Node.toDateString 1677715200000 = "Thu Mar 02 2023".
Proof. split; reflexivity. Qed.

Example Node_Date_2023 : Node.Date_parse "2023-01-15" = JS.DateAt 1673740800000.
Proof. reflexivity. Qed.

Example Node_Date_invalid : Node.Date_parse "not-a-date" = JS.InvalidDate.
Proof. reflexivity. Qed.

Example Node_toDateString_epoch : Node.toDateString 0 = "Thu Jan 01 1970".
Proof. reflexivity. Qed.

Example Node_toDateString_before : Node.toDateString (-1) = "Wed Dec 31 1969".
Proof. reflexivity. Qed.

Example Node_toDateString_start :
  Node.toDateString 1700000000000 = "Tue Nov 14 2023".
Proof. reflexivity. Qed.

Example Node_castObjectId_abc : Node.castObjectId "abc" = None.
Proof. reflexivity. Qed.

Example Demo_db3 :
  Demo.db3 = mkStore [Demo.user1] [Demo.run1; Demo.swim; Demo.ski].
Proof. reflexivity. Qed.

(** The whole log of the run, in ascending order of date. *)
Example Demo_log_all :
  get_logs (P := Node.platform) Demo.t_req Demo.alice
    (mkLogsQuery None None None) Demo.db3
  = Respond 200
      (JLog 1%N "alice" 3 [Demo.swim_entry; Demo.run_entry; Demo.ski_entry]).
Proof. reflexivity. Qed.

(** C1 fails as stated.  With [from] given and [to] omitted, the exercise
    dated 2030-01-01, after the request and not before [from], is not
    returned; with [to] given and [from] omitted, the exercise dated
    1960-05-05, before 1970 and not after [to], is not returned. *)
Lemma date_window_counterexample :
  (In Demo.ski (exercises Demo.db3)
   /\ Node.Date_parse "2020-01-01" = JS.DateAt 1577836800000
   /\ 1577836800000 <= date Demo.ski
   /\ Demo.t_req < date Demo.ski
   /\ get_logs (P := Node.platform) Demo.t_req Demo.alice
        (mkLogsQuery (Some "2020-01-01") None None) Demo.db3
      = Respond 200 (JLog 1%N "alice" 1 [Demo.run_entry]))
  /\
  (In Demo.swim (exercises Demo.db3)
   /\ Node.Date_parse "2031-01-01" = JS.DateAt 1924992000000
   /\ date Demo.swim <= 1924992000000
   /\ date Demo.swim < 0
   /\ get_logs (P := Node.platform) Demo.t_req Demo.alice
        (mkLogsQuery None (Some "2031-01-01") None) Demo.db3
      = Respond 200 (JLog 1%N "alice" 2 [Demo.run_entry; Demo.ski_entry])).
Proof.
  split; (split; [simpl; tauto|]);
    repeat split; try reflexivity; simpl; lia.
Qed.

Lemma get_logs_date_window_witness :
  exists candidates,
    (forall e,
       In e candidates <->
       In e (exercises Demo.db3) /\ userId e = 1%N /\
       1577836800000 <= date e <= Demo.t_req)
    /\ StronglySorted date_le candidates
    /\ get_logs (P := Node.platform) Demo.t_req Demo.alice
         (mkLogsQuery (Some "2020-01-01") None None) Demo.db3
       = Respond 200
           (JLog 1%N "alice" (List.length candidates)
              (map (formatEntry (P := Node.platform)) candidates)).
Proof.
  exact (get_logs_date_window (P := Node.platform) Demo.t_req Demo.alice
           (mkLogsQuery (Some "2020-01-01") None None) Demo.db3 Demo.user1
           (Some 1577836800000) None eq_refl eq_refl eq_refl).
Defined.

Lemma add_exercise_default_date_witness :
  exists ex,
    post_exercises (P := Node.platform) 1700000100000 Demo.alice Demo.run30
      Demo.db1
    = (Respond 200 (JExercise 1%N "alice" "Tue Nov 14 2023" (JS.JNum 30) "run"),
       mkStore (users Demo.db1) (exercises Demo.db1 ++ [ex]))
    /\ date ex = 1700000100000
    /\ (1700000100000 <> 1700000000000 -> date ex <> 1700000000000)
    /\ userId ex = 1%N
    /\ description ex = "run"
    /\ duration ex = JS.Num 30.
Proof.
  exact (add_exercise_default_date (P := Node.platform) 1700000100000
           Demo.alice Demo.run30 Demo.db1 Demo.user1 "run" "30" 30
           eq_refl eq_refl eq_refl eq_refl eq_refl).
Defined.

(** C3 fails as stated at n = 0.  The request carries [limit=0]; the user
    has three matching exercises, more than 0; a limit of 0 is no limit,
    and all three records are returned, not none. *)
Lemma limit_zero_counterexample :
  JS.given (Some "0") = Some "0"
  /\ Node.parseInt "0" = JS.Num 0
  /\ exec (P := Node.platform)
       (logQuery (P := Node.platform) Demo.t_req Demo.alice
          (mkLogsQuery None None None)) Demo.db3
     = Ok [Demo.swim; Demo.run1; Demo.ski]
  /\ get_logs (P := Node.platform) Demo.t_req Demo.alice
       (mkLogsQuery None None (Some "0")) Demo.db3
     = Respond 200
         (JLog 1%N "alice" 3
            [Demo.swim_entry; Demo.run_entry; Demo.ski_entry]).
Proof. repeat split. Qed.

Lemma get_logs_limit_witness :
  exists found rest,
    get_logs (P := Node.platform) Demo.t_req Demo.alice
      (mkLogsQuery None None (Some "2")) Demo.db3
    = Respond 200
        (JLog 1%N "alice" 2 (map (formatEntry (P := Node.platform)) found))
    /\ List.length found = 2%nat
    /\ Permutation [Demo.swim; Demo.run1; Demo.ski] (found ++ rest)
    /\ StronglySorted date_le found
    /\ Forall (fun a => Forall (date_le a) rest) found.
Proof.
  refine (get_logs_limit (P := Node.platform) Demo.t_req Demo.alice
            None None (Some "2") Demo.db3 Demo.user1
            [Demo.swim; Demo.run1; Demo.ski] "2" 2
            eq_refl eq_refl eq_refl eq_refl _ _).
  - lia.
  - simpl. lia.
Defined.

(** C4 fails as stated.  [from=garbage] does not parse; the user exists;
    the handler sends no body of the shape [{_id, username, count, log}]:
    the query is refused when its bound is cast, and nothing is sent. *)
Lemma unparseable_from_counterexample :
  User_findById (P := Node.platform) Demo.alice Demo.db3 = Ok (Some Demo.user1)
  /\ Node.Date_parse "garbage" = JS.InvalidDate
  /\ get_logs (P := Node.platform) Demo.t_req Demo.alice
       (mkLogsQuery (Some "garbage") None None) Demo.db3
     = Unhandled (CastError "date").
Proof. repeat split. Qed.

Lemma get_logs_no_validation_witness :
  (forall status json,
     get_logs (P := Node.platform) Demo.t_req Demo.alice
       (mkLogsQuery (Some "2020-01-01") None (Some "1")) Demo.db3
     = Respond status json ->
     status = 200%nat /\
     exists found,
       json = JLog 1%N "alice" (List.length found)
                (map (formatEntry (P := Node.platform)) found))
  /\
  exists found,
    get_logs (P := Node.platform) Demo.t_req Demo.alice
      (mkLogsQuery (Some "2020-01-01") None (Some "1")) Demo.db3
    = Respond 200
        (JLog 1%N "alice" (List.length found)
           (map (formatEntry (P := Node.platform)) found)).
Proof.
  destruct (get_logs_no_validation (P := Node.platform) Demo.t_req Demo.alice
              (mkLogsQuery (Some "2020-01-01") None (Some "1")) Demo.db3
              Demo.user1 eq_refl) as [Hshape Hanswers].
  split; [exact Hshape|].
  apply Hanswers.
  - discriminate.
  - discriminate.
  - intros s [= <-]. exists 1. reflexivity.
Defined.

Lemma create_user_duplicate_or_fresh_witness :
  post_users (Some "alice") Demo.db1
  = (Respond 500 (JError "Could not create user"), Demo.db1)
  /\
  exists id,
    ~ In id (map u_id (users Demo.db1)) /\
    post_users (Some "bob") Demo.db1
    = (Respond 200 (JUser "bob" id),
       mkStore (users Demo.db1 ++ [mkUser id "bob"]) (exercises Demo.db1)).
Proof.
  split.
  - apply (proj1 (create_user_duplicate_or_fresh "alice" Demo.db1)).
    exists Demo.user1. split; [simpl; tauto|reflexivity].
  - apply (proj2 (create_user_duplicate_or_fresh "bob" Demo.db1)).
    + discriminate.
    + intros u [<-|[]]. discriminate.
Defined.

Lemma create_user_without_username_witness :
  post_users (Some "") Demo.db1
  = (Respond 500 (JError "Could not create user"), Demo.db1)
  /\ post_users None Demo.db1
     = (Respond 500 (JError "Could not create user"), Demo.db1).
Proof.
  split.
  - exact (proj1 (create_user_without_username (Some "") Demo.db1 eq_refl)).
  - exact (proj1 (create_user_without_username None Demo.db1 eq_refl)).
Defined.

(** C6 at a failing input.  ["abc"] is not the text of an ObjectId, so it
    references no User; description and duration are present.  The lookup
    of line 95 rejects with a CastError outside any [try]: the handler does
    not answer 404, it answers nothing.  No Exercise is stored. *)
Theorem add_exercise_malformed_id :
  Node.castObjectId "abc" = None
  /\ post_exercises (P := Node.platform) Demo.t_req "abc" Demo.run30 Demo.db1
     = (Unhandled (CastError "_id"), Demo.db1).
Proof. split; reflexivity. Qed.

(** The not-found answer, for an identifier that is the text of an
    ObjectId. *)
Example add_exercise_unknown_user :
  post_exercises (P := Node.platform) Demo.t_req Demo.nobody Demo.run30
    Demo.db1
  = (Respond 404 (JError "User not found"), Demo.db1).
Proof. reflexivity. Qed.



Lemma add_exercise_invalid_date_witness :
  post_exercises (P := Node.platform) Demo.t_req Demo.alice
    (mkForm (Some "run") (Some "30") (Some "not-a-date")) Demo.db1
  = (Respond 400 (JError "Invalid date format"), Demo.db1).
Proof.
  exact (add_exercise_invalid_date (P := Node.platform) Demo.t_req Demo.alice
           (mkForm (Some "run") (Some "30") (Some "not-a-date")) Demo.db1
           Demo.user1 "run" "30" "not-a-date"
           eq_refl eq_refl eq_refl eq_refl eq_refl).
Defined.

(** The count is that of the returned records (1 here), not of the three
    exercises the user has. *)
Lemma get_logs_count_witness :
  1%nat = List.length [Demo.swim_entry]
  /\ exists found,
       exec (P := Node.platform)
         (logQuery (P := Node.platform) Demo.t_req Demo.alice
            (mkLogsQuery None None (Some "1"))) Demo.db3
       = Ok found
       /\ [Demo.swim_entry] = map (formatEntry (P := Node.platform)) found
       /\ 1%nat = List.length found.
Proof.
  exact (get_logs_count (P := Node.platform) Demo.t_req Demo.alice
           (mkLogsQuery None None (Some "1")) Demo.db3
           200 1%N "alice" 1 [Demo.swim_entry] eq_refl).
Defined.

(** The log after the round trip: the exercise supplied as ["row"],
    ["15 min"] comes back as ["row"], 15. *)
Example Demo_round_trip_log :
  get_logs (P := Node.platform) 1800000000000 Demo.alice
    (mkLogsQuery None None None) Demo.db_later
  = Respond 200
      (JLog 1%N "alice" 5
         [Demo.swim_entry; Demo.run_entry;
          mkEntry "run" (JS.JNum 30) "Tue Nov 14 2023";
          mkEntry "row" (JS.JNum 15) "Thu Feb 29 2024";
          Demo.ski_entry]).
Proof. reflexivity. Qed.

(* ================================================================== *)
(** * Further properties of the handlers *)

Section Effects.

Context {P : Platform}.

(** ** What a request does to the database *)

(** [POST /api/users]: either the answer is the 500 of the [catch] and the
    database is as before, or the answer is 200 and one user, with the
    username of the request and a new identifier, was appended. *)
Lemma post_users_effect (name : option string) (db db1 : Store) (o : outcome) :
  post_users name db = (o, db1) ->
  (o = Respond 500 (JError "Could not create user") /\ db1 = db)
  \/
  (exists u,
     o = Respond 200 (JUser (username u) (u_id u)) /\
     name = Some (username u) /\ username u <> "" /\
     has_username (username u) db = false /\
     u_id u = fresh_id db /\
     db1 = mkStore (users db ++ [u]) (exercises db)).
Proof.
  unfold post_users, User_save.
  destruct name as [s|]; [|intros [= <- <-]; now left].
  destruct (String.eqb_spec s ""); [intros [= <- <-]; now left|].
  destruct (has_username s db) eqn:Hnew; intros [= <- <-]; [now left|].
  right. exists (mkUser (fresh_id db) s). simpl. repeat split; trivial.
Qed.

(** [POST /api/users/:_id/exercises]: either the answer is not a 200 and
    the database is as before, or it is a 200 and one exercise of the user
    found was appended. *)
Lemma post_exercises_effect (now : Z) (id : string) (form : ExerciseForm)
  (db db1 : Store) (o : outcome) :
  post_exercises now id form db = (o, db1) ->
  ((forall json, o <> Respond 200 json) /\ db1 = db)
  \/
  (exists json user ex,
     o = Respond 200 json /\
     User_findById id db = Ok (Some user) /\
     userId ex = u_id user /\
     db1 = mkStore (users db) (exercises db ++ [ex])).
Proof.
  unfold post_exercises.
  destruct (JS.given (f_description form)) as [descr|];
    [destruct (JS.given (f_duration form)) as [dur|]|];
    try (intros [= <- <-]; left; split; [discriminate|reflexivity]).
  destruct (User_findById id db) as [[user|]|e];
    try (intros [= <- <-]; left; split; [discriminate|reflexivity]).
  destruct (exerciseDate now (f_date form)) as [d|];
    try (intros [= <- <-]; left; split; [discriminate|reflexivity]).
  destruct (Exercise_save _ db) as [[ex db']|e] eqn:Hsave;
    try (intros [= <- <-]; left; split; [discriminate|reflexivity]).
  intros [= <- <-]. right.
  apply Exercise_save_grows in Hsave. simpl in Hsave.
  destruct Hsave as (Hu & He & Hid & _).
  eexists _, user, ex. repeat split; trivial.
  destruct db' as [us es]. simpl in Hu, He. now subst.
Qed.

(** X10.  No request writes partially: whatever the request, either the
    database is left exactly as it was, or the answer is a 200 and exactly
    one document was appended, a user or an exercise.  In particular an
    answer other than 200, or no answer, changes nothing, and the two GET
    routes never change anything. *)
Theorem serve_atomic (r : Request) (db db1 : Store) (o : outcome) :
  serve r db = (o, db1) ->
  (db1 = db
   \/ (exists json, o = Respond 200 json) /\
      ((exists u, db1 = mkStore (users db ++ [u]) (exercises db)) \/
       (exists ex, db1 = mkStore (users db) (exercises db ++ [ex]))))
  /\ ((forall json, o <> Respond 200 json) -> db1 = db)
  /\ (match r with
      | GetUsers | GetLogs _ _ _ => db1 = db
      | _ => True
      end).
Proof.
  destruct r as [name| |now id form|now id q]; simpl.
  - intros Hs. apply post_users_effect in Hs.
    destruct Hs as [[-> ->]|(u & -> & _ & _ & _ & _ & ->)].
    + repeat split; auto.
    + repeat split; [right; split; eauto|].
      intros Hno. now destruct (Hno (JUser (username u) (u_id u))).
  - intros [= <- <-]. repeat split; auto.
  - intros Hs. apply post_exercises_effect in Hs.
    destruct Hs as [[Hno ->]|(json & user & ex & -> & _ & _ & ->)].
    + repeat split; auto.
    + repeat split; [right; split; eauto|].
      intros Hno. now destruct (Hno json).
  - intros [= <- <-]. repeat split; auto.
Qed.

(** ** The exercise endpoint: order of the checks *)

(** X2.  When [description] or [duration] is missing or empty, the answer
    is 400 "Description and duration are required" and nothing is stored,
    whatever the identifier (unknown, or not even the text of an ObjectId)
    and whatever the date: the fields are checked before the user is looked
    up. *)
Theorem add_exercise_required_fields (now : Z) (id : string)
  (form : ExerciseForm) (db : Store) :
  JS.given (f_description form) = None \/ JS.given (f_duration form) = None ->
  post_exercises now id form db
  = (Respond 400 (JError "Description and duration are required"), db).
Proof.
  unfold post_exercises. intros [-> | ->]; [reflexivity|].
  now destruct (JS.given (f_description form)).
Qed.

(** X3.  The exercise endpoint leaves a request unanswered in one case
    only: both fields are present and the identifier is not the text of an
    ObjectId.  In every other case it answers, with status 200, 400, 404 or
    500. *)
Theorem add_exercise_unanswered (now : Z) (id : string)
  (form : ExerciseForm) (db : Store) :
  (forall e,
     fst (post_exercises now id form db) = Unhandled e <->
     e = CastError "_id" /\ castObjectId id = None /\
     JS.given (f_description form) <> None /\
     JS.given (f_duration form) <> None)
  /\
  (forall status json,
     fst (post_exercises now id form db) = Respond status json ->
     status = 200 \/ status = 400 \/ status = 404 \/ status = 500)%nat.
Proof.
  unfold post_exercises, User_findById. split.
  - intros e.
    destruct (JS.given (f_description form)) as [descr|];
      [destruct (JS.given (f_duration form)) as [dur|]|]; simpl;
      try (split; [discriminate|intros (_ & _ & H1 & H2); congruence]).
    destruct (castObjectId id) as [oid|]; simpl.
    + split; [|intros (_ & H & _); discriminate].
      destruct (find _ (users db)); simpl; [|discriminate].
      destruct (exerciseDate now (f_date form)); simpl; [|discriminate].
      destruct (Exercise_save _ db) as [[? ?]|?]; discriminate.
    + split; [intros [= <-]|intros (-> & _)]; repeat split; discriminate.
  - intros status json.
    destruct (JS.given (f_description form)) as [descr|];
      [destruct (JS.given (f_duration form)) as [dur|]|]; simpl;
      try (intros [= <- _]; tauto).
    destruct (castObjectId id) as [oid|]; simpl; [|discriminate].
    destruct (find _ (users db)); simpl; [|intros [= <- _]; tauto].
    destruct (exerciseDate now (f_date form)); simpl; [|intros [= <- _]; tauto].
    destruct (Exercise_save _ db) as [[? ?]|?]; simpl; intros [= <- _]; tauto.
Qed.

End Effects.

Section Saving.

Context {P : Platform}.

(** X4.  When a [date] is supplied that parses, the Exercise is stored with
    that date, not with the time of the request, and the response carries
    the date string of that date (description and duration given, the
    duration a number, the user existing). *)
Theorem add_exercise_supplied_date (now : Z) (id : string)
  (form : ExerciseForm) (db : Store) (user : User)
  (descr dur s : string) (n ms : Z) :
  JS.given (f_description form) = Some descr ->
  JS.given (f_duration form) = Some dur ->
  parseInt dur = JS.Num n ->
  JS.given (f_date form) = Some s ->
  Date_parse s = JS.DateAt ms ->
  User_findById id db = Ok (Some user) ->
  post_exercises now id form db
  = (Respond 200
       (JExercise (u_id user) (username user) (toDateString ms) (JS.JNum n)
          descr),
     mkStore (users db)
       (exercises db
        ++ [mkExercise (fresh_id db) (u_id user) descr (JS.Num n) ms])).
Proof.
  intros Hdescr Hdur Hn Hdate Hms Huser.
  rewrite (post_exercises_found now id form db user descr dur Hdescr Hdur Huser).
  unfold exerciseDate. rewrite Hdate, Hms, Hn. simpl.
  apply given_Some in Hdescr. destruct Hdescr as [_ Hne].
  now rewrite (Exercise_save_ok _ _ _ _ _ Hne).
Qed.

(** X5.  When the [duration] does not read as a number ([parseInt] gives
    NaN), and the request otherwise passes the checks (description given,
    user existing, date omitted or parseable), the save is refused and the
    answer is 500 "Failed to save exercise"; nothing is stored. *)
Theorem add_exercise_nan_duration (now : Z) (id : string)
  (form : ExerciseForm) (db : Store) (user : User) (descr dur : string) :
  JS.given (f_description form) = Some descr ->
  JS.given (f_duration form) = Some dur ->
  parseInt dur = JS.NaN ->
  (forall s, JS.given (f_date form) = Some s ->
             Date_parse s <> JS.InvalidDate) ->
  User_findById id db = Ok (Some user) ->
  post_exercises now id form db
  = (Respond 500 (JError "Failed to save exercise"), db).
Proof.
  intros Hdescr Hdur Hnan Hdate Huser.
  rewrite (post_exercises_found now id form db user descr dur Hdescr Hdur Huser).
  rewrite Hnan. unfold exerciseDate.
  apply given_Some in Hdescr. destruct Hdescr as [_ Hne].
  destruct (JS.given (f_date form)) as [s|].
  - specialize (Hdate s eq_refl).
    destruct (Date_parse s) as [|ms]; [contradiction|]. simpl.
    unfold Exercise_save; simpl.
    now destruct (String.eqb_spec descr "").
  - unfold Exercise_save; simpl.
    now destruct (String.eqb_spec descr "").
Qed.

End Saving.

Section Logs.

Context {P : Platform}.

(** ** What a log can contain *)

Lemma apply_limit_prefix (lim : option JS.number) (l found : list Exercise) :
  apply_limit lim l = Ok found -> exists k, found = firstn k l.
Proof.
  destruct lim as [[|n| |]|]; simpl.
  - destruct nanLimitRejected; [discriminate|].
    intros [= <-]. exists (List.length l). now rewrite firstn_all.
  - destruct (n =? 0); intros [= <-]; [|eauto].
    exists (List.length l). now rewrite firstn_all.
  - destruct infiniteLimitRejected; [discriminate|].
    intros [= <-]. exists (List.length l). now rewrite firstn_all.
  - destruct infiniteLimitRejected; [discriminate|].
    intros [= <-]. exists (List.length l). now rewrite firstn_all.
  - intros [= <-]. exists (List.length l). now rewrite firstn_all.
Qed.

Lemma In_firstn (k : nat) (l : list Exercise) (e : Exercise) :
  In e (firstn k l) -> In e l.
Proof.
  intros Hin. rewrite <- (firstn_skipn k l). apply in_or_app. now left.
Qed.

Lemma StronglySorted_firstn (k : nat) (l : list Exercise) :
  StronglySorted date_le l -> StronglySorted date_le (firstn k l).
Proof.
  intros Hs. rewrite <- (firstn_skipn k l) in Hs.
  now apply StronglySorted_app_inv in Hs.
Qed.

(** What a query of the log endpoint returns is a prefix of the user's
    exercises that pass some bounds, sorted. *)
Lemma exec_logQuery_inv (now : Z) (id : string) (q : LogsQuery) (db : Store)
  (found : list Exercise) :
  exec (logQuery now id q) db = Ok found ->
  exists uid lo hi k,
    castObjectId id = Some uid /\
    found = firstn k
              (sort_by_date (filter (selects uid lo hi) (exercises db))).
Proof.
  unfold exec. rewrite logQuery_userId, logQuery_sort.
  destruct (castObjectId id) as [uid|]; simpl; [|discriminate].
  destruct (cast_bound _) as [lo|]; simpl; [|discriminate].
  destruct (cast_bound _) as [hi|]; simpl; [|discriminate].
  intros Hlim. apply apply_limit_prefix in Hlim. destruct Hlim as [k ->].
  now exists uid, lo, hi, k.
Qed.

(** X6.  Whatever the filters and the limit, a log that is returned names
    a stored user, the one whose identifier was asked for, and lists only
    stored exercises of that user, never those of another, in ascending
    order of date. *)
Theorem get_logs_own_sorted (now : Z) (id : string) (q : LogsQuery)
  (db : Store) (status : nat) (oid : ObjectId) (name : string) (count : nat)
  (log : list LogEntry) :
  get_logs now id q db = Respond status (JLog oid name count log) ->
  castObjectId id = Some oid /\
  In (mkUser oid name) (users db) /\
  exists found,
    log = map formatEntry found /\
    Forall (fun e => In e (exercises db) /\ userId e = oid) found /\
    StronglySorted date_le found.
Proof.
  unfold get_logs.
  destruct (User_findById id db) as [[user|]|e] eqn:Huser; try discriminate.
  destruct (exec (logQuery now id q) db) as [found|e] eqn:Hexec;
    [|discriminate].
  intros [= _ <- <- _ <-].
  destruct (findById_Some id db user Huser) as [Hcast Hin].
  split; [exact Hcast|]. split; [now destruct user|].
  exists found. split; [reflexivity|].
  destruct (exec_logQuery_inv now id q db found Hexec)
    as (uid & lo & hi & k & Hcast' & ->).
  assert (uid = u_id user) as -> by congruence.
  split.
  - apply Forall_forall. intros e He. apply In_firstn in He.
    apply sort_by_date_In, filter_In in He. destruct He as [He Hsel].
    apply selects_true in Hsel. tauto.
  - apply StronglySorted_firstn, sort_by_date_sorted.
Qed.


(** ** The log endpoint: errors *)

(** X8.  For an identifier that is the text of an ObjectId no stored user
    has, the answer is 404 "User not found" whatever the query: the user is
    looked up before the filters are read, so even an unparseable [from] or
    [limit] gives the 404. *)
Theorem get_logs_unknown_user (now : Z) (id : string) (oid : ObjectId)
  (q : LogsQuery) (db : Store) :
  castObjectId id = Some oid ->
  ~ In oid (map u_id (users db)) ->
  get_logs now id q db = Respond 404 (JError "User not found").
Proof.
  intros Hcast Hnot. unfold get_logs.
  now rewrite (findById_unknown id oid db Hcast Hnot).
Qed.

(** X9.  The log endpoint leaves a request unanswered only for an
    identifier that is not the text of an ObjectId, a given bound that does
    not parse, or a given limit that does not read as a finite number (it
    reads as NaN or as an infinity); every other request is answered, with
    status 200 or 404. *)
Theorem get_logs_unanswered (now : Z) (id : string) (q : LogsQuery)
  (db : Store) :
  (forall e,
     get_logs now id q db = Unhandled e ->
     castObjectId id = None
     \/ dateQuery_bound (q_from q) = Some JS.InvalidDate
     \/ dateQuery_bound (q_to q) = Some JS.InvalidDate
     \/ exists s, JS.given (q_lim q) = Some s /\
                  forall n, parseInt s <> JS.Num n)
  /\
  (forall status json,
     get_logs now id q db = Respond status json ->
     status = 200 \/ status = 404)%nat.
Proof.
  split.
  - intros e Hun.
    destruct (castObjectId id) as [oid|] eqn:Hcast; [|now left]. right.
    unfold get_logs, User_findById in Hun. rewrite Hcast in Hun.
    destruct (find _ (users db)) as [user|]; [|discriminate].
    destruct (exec (logQuery now id q) db) as [found|e'] eqn:Hexec;
      [discriminate|].
    unfold exec in Hexec.
    rewrite logQuery_userId, logQuery_gte, logQuery_lte, logQuery_limit,
      logQuery_sort, Hcast in Hexec. simpl in Hexec.
    destruct (dateQuery_bound (q_from q)) as [[|f]|];
      destruct (dateQuery_bound (q_to q)) as [[|t]|]; auto;
      simpl in Hexec;
      (destruct (JS.given (q_lim q)) as [s|]; simpl in Hexec;
       [|discriminate]);
      (destruct (parseInt s) as [|n| |] eqn:Hs;
       [right; right; exists s; split; [reflexivity|intros n; rewrite Hs; discriminate]
       |simpl in Hexec; destruct (n =? 0); discriminate
       |right; right; exists s; split; [reflexivity|intros n; rewrite Hs; discriminate]
       |right; right; exists s; split; [reflexivity|intros n; rewrite Hs; discriminate]]).
  - intros status json. unfold get_logs.
    destruct (User_findById id db) as [[user|]|e]; try discriminate.
    + destruct (exec (logQuery now id q) db); [|discriminate].
      intros [= <- _]. now left.
    + intros [= <- _]. now right.
Qed.

(** X11.  When both bounds are given and parse, and [from] is later than
    [to], no exercise passes: whenever the request is answered the log is
    empty with count 0, and it is answered when no limit is given. *)
Theorem get_logs_empty_window (now : Z) (id : string) (q : LogsQuery)
  (db : Store) (user : User) (f t : Z) :
  User_findById id db = Ok (Some user) ->
  dateQuery_bound (q_from q) = Some (JS.DateAt f) ->
  dateQuery_bound (q_to q) = Some (JS.DateAt t) ->
  t < f ->
  (forall status json,
     get_logs now id q db = Respond status json ->
     json = JLog (u_id user) (username user) 0 [])
  /\ (JS.given (q_lim q) = None ->
      get_logs now id q db
      = Respond 200 (JLog (u_id user) (username user) 0 [])).
Proof.
  intros Huser Hf Ht Hlt.
  destruct (findById_Some id db user Huser) as [Hcast _].
  destruct (logQuery_casts now id q (Some f) (Some t) Hf Ht) as [Hlo Hhi].
  assert (filter (selects (u_id user) (Some f) (Some t)) (exercises db) = [])
    as Hnone.
  { induction (exercises db) as [|e l IH]; simpl; [reflexivity|].
    destruct (selects (u_id user) (Some f) (Some t) e) eqn:Hsel; [|exact IH].
    apply selects_true in Hsel. lia. }
  rewrite (get_logs_found now id q db user Huser).
  rewrite (exec_sorted (logQuery now id q) db (u_id user) (Some f) (Some t));
    rewrite ?logQuery_userId, ?logQuery_limit; auto using logQuery_sort.
  rewrite Hnone. simpl sort_by_date. split.
  - intros status json.
    destruct (apply_limit _ []) as [found|e] eqn:Hlim; [|discriminate].
    apply apply_limit_prefix in Hlim. destruct Hlim as [k ->].
    rewrite firstn_nil. now intros [= <- <-].
  - now intros ->.
Qed.

End Logs.

Section Composition.

Context {P : Platform}.

(** ** Requests one after the other *)

Lemma find_app_None (f : User -> bool) (l l' : list User) :
  find f l = None -> find f (l ++ l') = find f l'.
Proof.
  induction l as [|x l IH]; simpl; [reflexivity|].
  destruct (f x); [discriminate|exact IH].
Qed.

Lemma find_fresh (db : Store) :
  find (fun u => (u_id u =? fresh_id db)%N) (users db) = None.
Proof.
  destruct (find _ (users db)) as [u|] eqn:Hfind; [|reflexivity].
  apply find_some in Hfind. destruct Hfind as [Hin Heq].
  apply N.eqb_eq in Heq. destruct (fresh_id_not_user db).
  rewrite <- Heq. now apply in_map.
Qed.

(** No exercise of a consistent database belongs to the identifier the
    next document will get. *)
Lemma filter_fresh (db : Store) (lo hi : option Z) :
  consistent db ->
  filter (selects (fresh_id db) lo hi) (exercises db) = [].
Proof.
  intros (_ & _ & Hown).
  induction Hown as [|e l He _ IH]; simpl; [reflexivity|].
  destruct (selects (fresh_id db) lo hi e) eqn:Hsel; [|exact IH].
  apply selects_true in Hsel. destruct Hsel as [Heq _].
  destruct (fresh_id_not_user db). now rewrite <- Heq.
Qed.

(** X12.  A user that has just been created has an empty log: asked by the
    text of the identifier that was returned, the log endpoint answers 200
    with that identifier, the username, count 0 and an empty log, and no
    query on this user returns anything else; after any further requests
    the same identifier still names the same user.  (The database before
    the creation is one the application may have built.) *)
Theorem new_user_empty_log (name : option string) (db db1 : Store)
  (n s : string) (oid : ObjectId) (now : Z) :
  consistent db ->
  post_users name db = (Respond 200 (JUser n oid), db1) ->
  castObjectId s = Some oid ->
  get_logs now s (mkLogsQuery None None None) db1
  = Respond 200 (JLog oid n 0 [])
  /\ (forall q status json,
        get_logs now s q db1 = Respond status json ->
        json = JLog oid n 0 [])
  /\ (forall later now',
        exists count log,
          get_logs now' s (mkLogsQuery None None None) (run later db1)
          = Respond 200 (JLog oid n count log)).
Proof.
  intros Hdb Hpost Hcast. apply post_users_effect in Hpost.
  destruct Hpost as [[Habs _]|(u & Ho & _ & _ & _ & Hid & ->)];
    [discriminate|].
  injection Ho as Hn Hoid. destruct u as [uid un]. simpl in *. subst uid un oid.
  assert (User_findById s
            (mkStore (users db ++ [mkUser (fresh_id db) n]) (exercises db))
          = Ok (Some (mkUser (fresh_id db) n))) as Huser.
  { unfold User_findById. rewrite Hcast. simpl.
    rewrite (find_app_None _ _ _ (find_fresh db)). simpl.
    now rewrite N.eqb_refl. }
  split; [|split].
  - rewrite (get_logs_found now s _ _ _ Huser).
    rewrite (exec_sorted _ _ (fresh_id db) None None); trivial.
    simpl exercises. now rewrite (filter_fresh db None None Hdb).
  - intros q status json. rewrite (get_logs_found now s q _ _ Huser).
    destruct (exec _ _) as [found|e] eqn:Hexec; [|discriminate].
    apply exec_logQuery_inv in Hexec.
    destruct Hexec as (uid & lo & hi & k & Hcast' & ->).
    assert (uid = fresh_id db) as -> by congruence.
    simpl exercises. rewrite (filter_fresh db lo hi Hdb). simpl.
    rewrite firstn_nil. now intros [= <- <-].
  - intros later now'.
    destruct (run_grows later
                (mkStore (users db ++ [mkUser (fresh_id db) n]) (exercises db)))
      as (us & es & Hus & Hes).
    pose proof (findById_grows s _ (run later _) _ us Huser Hus) as Huser'.
    rewrite (get_logs_found now' s _ _ _ Huser').
    rewrite (exec_sorted _ _ (fresh_id db) None None); trivial.
    simpl. eauto.
Qed.

(** X13.  Adding an exercise adds one record to the log of its user: after
    a request answered 200, the unfiltered log of that user has one record
    more than before, and its records are those of before together with
    the new exercise. *)
Theorem add_exercise_extends_log (now : Z) (id : string)
  (form : ExerciseForm) (db db1 : Store) (json : body) (now' : Z) :
  post_exercises now id form db = (Respond 200 json, db1) ->
  exists user ex before after,
    exercises db1 = exercises db ++ [ex] /\
    get_logs now' id (mkLogsQuery None None None) db
    = Respond 200
        (JLog (u_id user) (username user) (List.length before)
           (map formatEntry before)) /\
    get_logs now' id (mkLogsQuery None None None) db1
    = Respond 200
        (JLog (u_id user) (username user) (S (List.length before))
           (map formatEntry after)) /\
    Permutation after (ex :: before).
Proof.
  intros Hpost. apply post_exercises_effect in Hpost.
  destruct Hpost as [[Hno _]|(json' & user & ex & _ & Huser & Hown & ->)];
    [now destruct (Hno json)|].
  destruct (findById_Some id db user Huser) as [Hcast _].
  assert (selects (u_id user) None None ex = true) as Hsel
    by (apply selects_true; auto).
  exists user, ex,
    (sort_by_date (filter (selects (u_id user) None None) (exercises db))),
    (sort_by_date
       (filter (selects (u_id user) None None) (exercises db ++ [ex]))).
  assert (Permutation
            (sort_by_date
               (filter (selects (u_id user) None None) (exercises db ++ [ex])))
            (ex :: sort_by_date
                     (filter (selects (u_id user) None None) (exercises db))))
    as Hperm.
  { rewrite !sort_by_date_perm, filter_app. simpl. rewrite Hsel.
    symmetry. apply Permutation_cons_append. }
  repeat split; trivial.
  - rewrite (get_logs_found now' id _ db user Huser).
    now rewrite (exec_sorted _ db (u_id user) None None).
  - assert (User_findById id (mkStore (users db) (exercises db ++ [ex]))
            = Ok (Some user)) as Huser' by exact Huser.
    rewrite (get_logs_found now' id _ _ user Huser').
    rewrite (exec_sorted _ _ (u_id user) None None); trivial.
    simpl apply_limit. cbv iota. simpl exercises.
    now rewrite (Permutation_length Hperm).
Qed.

(** The exercises of another owner do not count in a query. *)
Lemma exec_other_owner (q : Query) (us : list User) (es : list Exercise)
  (us' : list User) (ex : Exercise) :
  castObjectId (q_userId q) <> Some (userId ex) ->
  exec q (mkStore us' (es ++ [ex])) = exec q (mkStore us es).
Proof.
  intros Hne. unfold exec.
  destruct (castObjectId (q_userId q)) as [uid|]; simpl; [|reflexivity].
  destruct (cast_bound (q_gte q)) as [lo|]; simpl; [|reflexivity].
  destruct (cast_bound (q_lte q)) as [hi|]; simpl; [|reflexivity].
  rewrite filter_app. simpl.
  assert (selects uid lo hi ex = false) as ->.
  { destruct (selects uid lo hi ex) eqn:Hsel; [|reflexivity].
    apply selects_true in Hsel. destruct Hsel as [Heq _].
    destruct Hne. now rewrite Heq. }
  now rewrite app_nil_r.
Qed.

(** X14.  Adding an exercise for one user changes nothing in what the log
    endpoint answers for an identifier that denotes another ObjectId,
    whatever the query and whether or not the addition succeeded. *)
Theorem add_exercise_other_logs (now : Z) (id : string)
  (form : ExerciseForm) (db db1 : Store) (o : outcome)
  (now' : Z) (id' : string) (q : LogsQuery) :
  post_exercises now id form db = (o, db1) ->
  castObjectId id' <> castObjectId id ->
  get_logs now' id' q db1 = get_logs now' id' q db.
Proof.
  intros Hpost Hdiff. apply post_exercises_effect in Hpost.
  destruct Hpost as [[_ ->]|(json & user & ex & _ & Huser & Hown & ->)];
    [reflexivity|].
  destruct (findById_Some id db user Huser) as [Hcast _].
  unfold get_logs, User_findById. simpl users.
  destruct (castObjectId id') as [oid'|] eqn:Hcast'; [|reflexivity].
  destruct (find _ (users db)) as [user'|]; [|reflexivity].
  destruct db as [us es]. simpl.
  rewrite (exec_other_owner (logQuery now' id' q) us es us ex);
    [reflexivity|].
  rewrite logQuery_userId, Hcast', Hown. congruence.
Qed.

End Composition.

Section Users.

Context {P : Platform}.

(** ** Creating and listing users *)

Lemma has_username_snoc (m : string) (us : list User) (es : list Exercise)
  (u : User) :
  has_username m (mkStore (us ++ [u]) es)
  = has_username m (mkStore us es) || (username u =? m)%string.
Proof.
  unfold has_username. simpl. rewrite existsb_app. simpl.
  now rewrite orb_false_r.
Qed.

Lemma run_cons (r : Request) (rs : list Request) (db : Store) :
  run (r :: rs) db = run rs (snd (serve r db)).
Proof. reflexivity. Qed.

Lemma post_users_new (n : string) (db : Store) :
  n <> "" ->
  has_username n db = false ->
  post_users (Some n) db
  = (Respond 200 (JUser n (fresh_id db)),
     mkStore (users db ++ [mkUser (fresh_id db) n]) (exercises db)).
Proof.
  intros Hne Hnew. unfold post_users, User_save.
  destruct (String.eqb_spec n ""); [contradiction|].
  now rewrite Hnew.
Qed.

Lemma run_creates (names : list string) (db : Store) :
  NoDup names ->
  Forall (fun n => n <> "") names ->
  (forall n, In n names -> has_username n db = false) ->
  exists created,
    users (run (map (fun n => PostUsers (Some n)) names) db)
    = users db ++ created
    /\ map username created = names.
Proof.
  revert db. induction names as [|n names IH]; intros db Hnd Hne Hnew.
  - exists []. simpl. now rewrite app_nil_r.
  - apply NoDup_cons_iff in Hnd. destruct Hnd as [Hnotin Hnd].
    apply Forall_cons_iff in Hne. destruct Hne as [Hn Hne].
    simpl map. rewrite run_cons. simpl serve.
    rewrite (post_users_new n db Hn (Hnew n (or_introl eq_refl))). simpl snd.
    destruct (IH (mkStore (users db ++ [mkUser (fresh_id db) n])
                    (exercises db)) Hnd Hne) as (created & Hus & Hnames).
    + intros m Hm. rewrite has_username_snoc. simpl.
      destruct db as [us es]. simpl. rewrite (Hnew m (or_intror Hm)). simpl.
      apply String.eqb_neq. intros ->. contradiction.
    + exists (mkUser (fresh_id db) n :: created).
      rewrite Hus. simpl. rewrite <- app_assoc. simpl.
      split; [reflexivity|now rewrite Hnames].
Qed.

(** X1.  Listing after creating: when users are created one after the
    other under distinct non-empty usernames that no stored user has, the
    list endpoint then answers 200 with the users stored before followed by
    the new ones, in the order of their creation, each under its
    username. *)
Theorem list_users_after_creates (names : list string) (db : Store) :
  NoDup names ->
  Forall (fun n => n <> "") names ->
  (forall n u, In n names -> In u (users db) -> username u <> n) ->
  exists created,
    get_users (run (map (fun n => PostUsers (Some n)) names) db)
    = Respond 200 (JUsers (users db ++ created))
    /\ map username created = names.
Proof.
  intros Hnd Hne Hnew.
  destruct (run_creates names db Hnd Hne) as (created & Hus & Hnames).
  - intros n Hn. apply has_username_false. intros u Hu. now apply Hnew.
  - exists created. unfold get_users, User_find. now rewrite Hus.
Qed.

(** X15.  Every database that the application reaches from the empty one,
    by any sequence of requests to the four routes, is consistent: no two
    users share a username, no two users share an identifier, and every
    exercise refers to a stored user. *)
Theorem reachable_consistent (rs : list Request) : consistent (run rs empty).
Proof. apply run_consistent, empty_consistent. Qed.

End Users.

(* ================================================================== *)
(** * The further properties on the concrete platform *)

Lemma Demo_db3_consistent : consistent Demo.db3.
Proof.
  exact (run_consistent (P := Node.platform)
           [PostUsers (Some "alice");
            PostExercises Demo.t_req Demo.alice
              (mkForm (Some "run") (Some "30") (Some "2023-01-15"));
            PostExercises Demo.t_req Demo.alice
              (mkForm (Some "swim") (Some "20") (Some "1960-05-05"));
            PostExercises Demo.t_req Demo.alice
              (mkForm (Some "ski") (Some "45") (Some "2030-01-01"))]
           empty empty_consistent).
Qed.

(** A request that is left unanswered changes nothing. *)
Lemma serve_atomic_witness :
  snd (serve (P := Node.platform)
         (PostExercises Demo.t_req "abc" Demo.run30) Demo.db1)
  = Demo.db1.
Proof.
  apply (proj1 (proj2 (serve_atomic (P := Node.platform)
                         (PostExercises Demo.t_req "abc" Demo.run30)
                         Demo.db1 Demo.db1 (Unhandled (CastError "_id"))
                         eq_refl))).
  intros json. discriminate.
Defined.

Lemma add_exercise_required_fields_witness :
  post_exercises (P := Node.platform) Demo.t_req "abc"
    (mkForm (Some "run") (Some "") (Some "not-a-date")) Demo.db1
  = (Respond 400 (JError "Description and duration are required"), Demo.db1).
Proof.
  apply (add_exercise_required_fields (P := Node.platform)).
  right. reflexivity.
Defined.

Lemma add_exercise_unanswered_witness :
  fst (post_exercises (P := Node.platform) Demo.t_req "abc" Demo.run30
         Demo.db1)
  = Unhandled (CastError "_id").
Proof.
  apply (proj1 (add_exercise_unanswered (P := Node.platform) Demo.t_req "abc"
                  Demo.run30 Demo.db1)).
  repeat split; discriminate.
Defined.

Lemma add_exercise_supplied_date_witness :
  post_exercises (P := Node.platform) Demo.t_req Demo.alice Demo.row15
    Demo.db3
  = (Respond 200 (JExercise 1%N "alice" "Thu Feb 29 2024" (JS.JNum 15) "row"),
     mkStore (users Demo.db3)
       (exercises Demo.db3
        ++ [mkExercise 5%N 1%N "row" (JS.Num 15) 1709164800000])).
Proof.
  exact (add_exercise_supplied_date (P := Node.platform) Demo.t_req
           Demo.alice Demo.row15 Demo.db3 Demo.user1 "row" "15 min"
           "2024-02-29" 15 1709164800000
           eq_refl eq_refl eq_refl eq_refl eq_refl eq_refl).
Defined.

Lemma add_exercise_nan_duration_witness :
  post_exercises (P := Node.platform) Demo.t_req Demo.alice
    (mkForm (Some "run") (Some "half an hour") None) Demo.db3
  = (Respond 500 (JError "Failed to save exercise"), Demo.db3).
Proof.
  apply (add_exercise_nan_duration (P := Node.platform) Demo.t_req
           Demo.alice _ Demo.db3 Demo.user1 "run" "half an hour");
    try reflexivity.
  intros s. discriminate.
Defined.

Lemma get_logs_own_sorted_witness :
  Node.castObjectId Demo.bob = Some 5%N /\
  In (mkUser 5%N "bob") (users Demo.db_two) /\
  exists found,
    [mkEntry "walk" (JS.JNum 60) "Thu Jun 01 2023"]
    = map (formatEntry (P := Node.platform)) found /\
    Forall (fun e => In e (exercises Demo.db_two) /\ userId e = 5%N) found /\
    StronglySorted date_le found.
Proof.
  exact (get_logs_own_sorted (P := Node.platform) Demo.t_req Demo.bob
           (mkLogsQuery None None None) Demo.db_two 200 5%N "bob" 1
           [mkEntry "walk" (JS.JNum 60) "Thu Jun 01 2023"] eq_refl).
Defined.


Lemma get_logs_unknown_user_witness :
  get_logs (P := Node.platform) Demo.t_req Demo.nobody
    (mkLogsQuery (Some "garbage") None (Some "many")) Demo.db3
  = Respond 404 (JError "User not found").
Proof.
  apply (get_logs_unknown_user (P := Node.platform) Demo.t_req Demo.nobody
           255%N _ Demo.db3 eq_refl).
  simpl. intros [H|[]]. discriminate.
Defined.

Lemma get_logs_unanswered_witness :
  Node.castObjectId Demo.alice = None
  \/ dateQuery_bound (P := Node.platform) (Some "garbage")
     = Some JS.InvalidDate
  \/ dateQuery_bound (P := Node.platform) None = Some JS.InvalidDate
  \/ exists s, JS.given (@None string) = Some s /\
               forall n, Node.parseInt s <> JS.Num n.
Proof.
  exact (proj1 (get_logs_unanswered (P := Node.platform) Demo.t_req
                  Demo.alice (mkLogsQuery (Some "garbage") None None)
                  Demo.db3)
           (CastError "date") eq_refl).
Defined.

Lemma get_logs_empty_window_witness :
  get_logs (P := Node.platform) Demo.t_req Demo.alice
    (mkLogsQuery (Some "2024-01-01") (Some "2023-01-01") None) Demo.db3
  = Respond 200 (JLog 1%N "alice" 0 []).
Proof.
  apply (proj2 (get_logs_empty_window (P := Node.platform) Demo.t_req
                  Demo.alice
                  (mkLogsQuery (Some "2024-01-01") (Some "2023-01-01") None)
                  Demo.db3 Demo.user1 1704067200000 1672531200000
                  eq_refl eq_refl eq_refl ltac:(lia))).
  reflexivity.
Defined.

Lemma new_user_empty_log_witness :
  get_logs (P := Node.platform) Demo.t_req Demo.bob
    (mkLogsQuery None None None) (snd (post_users (Some "bob") Demo.db3))
  = Respond 200 (JLog 5%N "bob" 0 []).
Proof.
  exact (proj1 (new_user_empty_log (P := Node.platform) (Some "bob") Demo.db3
                  _ "bob" Demo.bob 5%N Demo.t_req Demo_db3_consistent
                  eq_refl eq_refl)).
Defined.

Lemma add_exercise_extends_log_witness :
  exists user ex before after,
    exercises
      (snd (post_exercises (P := Node.platform) Demo.t_req Demo.alice
              Demo.row15 Demo.db3))
    = exercises Demo.db3 ++ [ex] /\
    get_logs (P := Node.platform) Demo.t_req Demo.alice
      (mkLogsQuery None None None) Demo.db3
    = Respond 200
        (JLog (u_id user) (username user) (List.length before)
           (map (formatEntry (P := Node.platform)) before)) /\
    get_logs (P := Node.platform) Demo.t_req Demo.alice
      (mkLogsQuery None None None)
      (snd (post_exercises (P := Node.platform) Demo.t_req Demo.alice
              Demo.row15 Demo.db3))
    = Respond 200
        (JLog (u_id user) (username user) (S (List.length before))
           (map (formatEntry (P := Node.platform)) after)) /\
    Permutation after (ex :: before).
Proof.
  exact (add_exercise_extends_log (P := Node.platform) Demo.t_req Demo.alice
           Demo.row15 Demo.db3 _ _ Demo.t_req eq_refl).
Defined.

Lemma add_exercise_other_logs_witness :
  get_logs (P := Node.platform) Demo.t_req Demo.bob
    (mkLogsQuery None None None)
    (snd (post_exercises (P := Node.platform) Demo.t_req Demo.alice
            Demo.run30 Demo.db_two))
  = get_logs (P := Node.platform) Demo.t_req Demo.bob
      (mkLogsQuery None None None) Demo.db_two.
Proof.
  apply (add_exercise_other_logs (P := Node.platform) Demo.t_req Demo.alice
           Demo.run30 Demo.db_two _ _ Demo.t_req Demo.bob
           (mkLogsQuery None None None) (surjective_pairing _)).
  discriminate.
Defined.

(** The log of the second user, before and after the first user adds an
    exercise. *)
Example Demo_other_log :
  get_logs (P := Node.platform) Demo.t_req Demo.bob
    (mkLogsQuery None None None)
    (snd (post_exercises (P := Node.platform) Demo.t_req Demo.alice
            Demo.run30 Demo.db_two))
  = Respond 200 (JLog 5%N "bob" 1 [mkEntry "walk" (JS.JNum 60) "Thu Jun 01 2023"]).
Proof. reflexivity. Qed.

Lemma list_users_after_creates_witness :
  exists created,
    get_users
      (run (P := Node.platform)
         (map (fun n => PostUsers (Some n)) ["bob"; "carol"]) Demo.db1)
    = Respond 200 (JUsers (users Demo.db1 ++ created))
    /\ map username created = ["bob"; "carol"].
Proof.
  apply (list_users_after_creates (P := Node.platform) ["bob"; "carol"]
           Demo.db1).
  - repeat constructor; simpl; intuition discriminate.
  - repeat constructor; discriminate.
  - intros n u [<-|[<-|[]]] [<-|[]]; discriminate.
Defined.

(** The list of the users after the two creations. *)
Example Demo_list_users :
  get_users
    (run (P := Node.platform)
       (map (fun n => PostUsers (Some n)) ["bob"; "carol"]) Demo.db1)
  = Respond 200
      (JUsers [mkUser 1%N "alice"; mkUser 2%N "bob"; mkUser 3%N "carol"]).
Proof. reflexivity. Qed.
